(** * Panel-Segmentation: the training orchestration of [panel_train.py]

    A shallow embedding of [TrainPanelSegmentationModel] and of the parts of
    numpy, pandas, Keras and matplotlib that its methods drive, followed by
    the properties of the specification.

    Conventions.
    - Python exceptions are values of [exn]; a computation that can raise
      has type [result A].
    - A finite float is a rational ([Q]); the IEEE values that a division
      by zero produces are the extra constructors of [npfloat].  Rounding
      is not modelled.
    - A tensor of shape (N, ...) is a list of N samples, each sample the
      list of its entries in row-major order. *)

From Stdlib Require Import ZArith QArith Qreduction List Lia Lqa Ascii.
From stdpp Require Import base option list sorting strings pretty gmap.

Open Scope Z_scope.

(** ** Python: exceptions and integer arithmetic *)
Module Py.

(** The key of a failed lookup: a dict key or a row label. *)
Inductive pykey : Type :=
| KStr (s : string)
| KInt (i : nat).

Inductive exn : Type :=
| KeyError (key : pykey)
| UnboundLocalError (name : string)
| ValueError (msg : string)
| IndexError (msg : string)
| ZeroDivisionError (msg : string)
| FileNotFoundError (file : string)
| InvalidArgumentError (msg : string).

Inductive result (A : Type) : Type :=
| Ok (a : A)
| Raise (e : exn).
Arguments Ok {A} a.
Arguments Raise {A} e.

#[export] Instance result_ret : MRet result := fun A a => Ok a.

#[export] Instance result_bind : MBind result := fun A B k c =>
  match c with
  | Ok a => k a
  | Raise e => Raise e
  end.

Definition raises {A} (c : result A) : Prop := exists e, c = Raise e.

(** [a // b] on Python ints: floor division, [ZeroDivisionError] on [b = 0]. *)
Definition floordiv (a b : Z) : result Z :=
  if Z.eqb b 0 then Raise (ZeroDivisionError "integer division or modulo by zero")
  else Ok (Z.div a b).

End Py.
Export Py.

(** ** numpy: floats with the IEEE specials, reductions, elementwise division *)
Module Np.

Inductive npfloat : Type :=
| Fin (q : Q)
| PInf
| NInf
| NaN.

(** A tensor of finite floats: one list of entries per sample. *)
Definition tensor : Type := list (list Q).

Definition flatten (t : tensor) : list Q := concat t.

Definition qmax (a b : Q) : Q := if Qle_bool a b then b else a.

(** [np.max(a)]: the maximum over all the entries of the array, whatever
    its shape; a zero-size array raises [ValueError]. *)
Definition max (t : tensor) : result Q :=
  match flatten t with
  | [] => Raise (ValueError "zero-size array to reduction operation maximum which has no identity")
  | x :: xs => Ok (fold_left qmax xs x)
  end.

(** [x / m] on floats under numpy's default error state: a zero divisor
    yields nan or a signed infinity together with a RuntimeWarning, and no
    exception. *)
Definition true_divide (x m : Q) : npfloat :=
  if Qeq_bool m 0 then
    if Qeq_bool x 0 then NaN
    else if Qle_bool 0 x then PInf else NInf
  else Fin (Qred (x / m)).

(** [a / s] for an array [a] and a scalar [s]. *)
Definition divide_scalar (t : tensor) (m : Q) : list (list npfloat) :=
  map (map (fun x => true_divide x m)) t.

Definition all_zero (t : tensor) : Prop :=
  Forall (Forall (fun x => Qeq x 0)) t.

(** [m] is the largest entry of the whole array. *)
Definition is_max (m : Q) (t : tensor) : Prop :=
  In m (flatten t) /\ forall y, In y (flatten t) -> Qle y m.

End Np.

(** ** Keras backend: the tensor operations used by the overlap metric *)
Module K.
Import Np.

Definition fadd (a b : npfloat) : npfloat :=
  match a, b with
  | NaN, _ | _, NaN => NaN
  | PInf, NInf | NInf, PInf => NaN
  | PInf, _ | _, PInf => PInf
  | NInf, _ | _, NInf => NInf
  | Fin x, Fin y => Fin (Qred (x + y))
  end.

Definition fneg (a : npfloat) : npfloat :=
  match a with
  | Fin x => Fin (Qred (- x))
  | PInf => NInf
  | NInf => PInf
  | NaN => NaN
  end.

Definition fsub (a b : npfloat) : npfloat := fadd a (fneg b).

(** Division of a float by a count (the last step of a mean). *)
Definition fdiv_count (a : npfloat) (n : nat) : npfloat :=
  match a with
  | Fin x => true_divide x (inject_Z (Z.of_nat n))
  | PInf => PInf
  | NInf => NInf
  | NaN => NaN
  end.

Definition qsum (l : list Q) : Q := fold_right Qplus 0%Q l.

Definition shape (t : tensor) : list nat := map length t.

(** [a * b], elementwise, for two tensors of one shape. Broadcasting is not
    modelled: operands of different shapes are rejected. *)
Definition multiply (a b : tensor) : result tensor :=
  if decide (shape a = shape b)
  then Ok (zip_with (zip_with Qmult) a b)
  else Raise (InvalidArgumentError "Incompatible shapes").

(** [K.sum(t, axis=[1, 2, 3])]: one sum per sample. *)
Definition sum_axis123 (t : tensor) : list Q := map qsum t.

(** [K.mean(v, axis=0)] of a vector; the mean of no value is nan. *)
Definition mean_axis0 (v : list npfloat) : npfloat :=
  fdiv_count (fold_left fadd v (Fin 0%Q)) (length v).

End K.

(** ** Keras callbacks: [ModelCheckpoint] *)
Module Callbacks.
Import Np.

Inductive mode_t : Type := Min | Max.

Record ModelCheckpoint : Type := {
  filepath : string;
  monitor : string;
  verbose : Z;
  save_best_only : bool;
  mode : mode_t
}.

(** The logs of one epoch: metric name to value. *)
Definition logs_t : Type := gmap string npfloat.

(** IEEE [a > b] and [a < b]: false as soon as one side is nan. *)
Definition fgt (a b : npfloat) : bool :=
  match a, b with
  | NaN, _ | _, NaN => false
  | PInf, PInf => false
  | PInf, _ => true
  | _, PInf => false
  | NInf, _ => false
  | Fin _, NInf => true
  | Fin x, Fin y => negb (Qle_bool x y)
  end.

Definition flt (a b : npfloat) : bool := fgt b a.

Definition monitor_op (m : mode_t) : npfloat -> npfloat -> bool :=
  match m with Max => fgt | Min => flt end.

Definition initial_best (m : mode_t) : npfloat :=
  match m with Max => NInf | Min => PInf end.

(** Modelled from the spec: the callback's [on_epoch_end] belongs to Keras
    and is not part of the repository. After every epoch the monitored
    metric is read from the epoch's logs; with [save_best_only] the weights
    are written to [filepath] (over any previous checkpoint) when the value
    improves on the best one seen so far in the run, in the direction that
    [mode] asks for; a metric absent from the logs skips the epoch. The
    result is the new best value and whether the file was written. *)
Definition on_epoch_end (cb : ModelCheckpoint) (best : npfloat) (logs : logs_t)
  : npfloat * bool :=
  if save_best_only cb then
    match logs !! monitor cb with
    | None => (best, false)
    | Some current =>
        if monitor_op (mode cb) current best then (current, true)
        else (best, false)
    end
  else (best, true).

(** The callback over the epochs of one run: for each epoch, was the
    checkpoint file written. *)
Fixpoint run_from (cb : ModelCheckpoint) (best : npfloat) (epochs : list logs_t)
  : list bool :=
  match epochs with
  | [] => []
  | logs :: rest =>
      let '(best', written) := on_epoch_end cb best logs in
      written :: run_from cb best' rest
  end.

Definition run (cb : ModelCheckpoint) (epochs : list logs_t) : list bool :=
  run_from cb (initial_best (mode cb)) epochs.

End Callbacks.

(** ** The standard [random] module, over an explicit source of draws *)
Module Random.

(** The generator: an infinite sequence of raw draws and the position of
    the next one. *)
Record state : Type := { draws : nat -> nat; cursor : nat }.

(** [floor(random() * n)]: the next draw, brought into [0, n). *)
Definition randbelow (g : state) (n : nat) : nat * state :=
  (Nat.modulo (draws g (cursor g)) n,
   {| draws := draws g; cursor := S (cursor g) |}).

(** [choices(population, k=k)]: [k] picks with replacement; picking from an
    empty population is an [IndexError], asking for no pick is not. *)
Fixpoint choices {A} (g : state) (population : list A) (k : nat)
  : result (list A * state) :=
  match k with
  | O => Ok ([], g)
  | S k' =>
      let '(i, g1) := randbelow g (length population) in
      match population !! i with
      | None => Raise (IndexError "list index out of range")
      | Some x =>
          r ← choices g1 population k';
          Ok (x :: r.1, r.2)
      end
  end.

End Random.

(** ** pandas: the annotation table *)
Module Pandas.

(** One labelled bounding box. *)
Record AnnotationRecord : Type := {
  filename : string;
  class_label : string;
  xmin : Z;
  ymin : Z;
  xmax : Z;
  ymax : Z
}.

#[export] Instance AnnotationRecord_eq_dec : EqDecision AnnotationRecord.
Proof. solve_decision. Defined.

(** A frame with a [RangeIndex]: the label of a row is its position. *)
Definition DataFrame : Type := list AnnotationRecord.

(** [df['class']] *)
Definition class_column (df : DataFrame) : list string := map class_label df.

(** The distinct values of a column, in order of first appearance. *)
Fixpoint unique (col : list string) : list string :=
  match col with
  | [] => []
  | x :: rest => x :: filter (fun y => y <> x) (unique rest)
  end.

Definition count_of (c : string) (col : list string) : nat :=
  length (filter (fun y => y = c) col).

Definition more_frequent (a b : string * nat) : Prop := (b.2 <= a.2)%nat.

#[export] Instance more_frequent_dec : RelDecision more_frequent.
Proof. intros a b. unfold more_frequent. apply _. Defined.

(** [col.value_counts()]: each distinct value with its number of
    occurrences, most frequent first. pandas leaves the order among equal
    counts open; nothing below depends on it. *)
Definition value_counts (col : list string) : list (string * nat) :=
  merge_sort more_frequent (map (fun c => (c, count_of c col)) (unique col)).

(** [s.max()], evaluated on series of counts with at least one entry. *)
Definition series_max (s : list (string * nat)) : nat :=
  fold_right Nat.max 0%nat (map snd s).

(** [list(df[df['class'] == c].index)] *)
Definition index_of_class (df : DataFrame) (c : string) : list nat :=
  map fst (filter (fun p : nat * AnnotationRecord => class_label p.2 = c)
                  (zip (seq 0 (length df)) df)).

(** [df.loc[idx]] *)
Definition loc (df : DataFrame) (idx : nat) : result AnnotationRecord :=
  match df !! idx with
  | Some r => Ok r
  | None => Raise (KeyError (KInt idx))
  end.

(** [pd.concat([df, pd.DataFrame([row])], ignore_index=True)] *)
Definition concat_row (df : DataFrame) (r : AnnotationRecord) : DataFrame :=
  df ++ [r].

(** [df.reset_index(drop=True)]: the labels become the positions again,
    which they already are in this model. *)
Definition reset_index (df : DataFrame) : DataFrame := df.

End Pandas.

(** ** The files the detection trainer reads and writes *)
Module Files.
Import Pandas.

(** A folder of per-image XML annotations is represented by the rows it
    describes; a CSV file by the frame it holds. Several path strings can
    name one file or folder (a doubled or trailing separator, a dot
    segment, a link): [resolve] is the answer of the file system to which
    one a path names, and the two maps are keyed by its answers. *)
Record fs : Type := {
  resolve : string -> string;
  xml_folders : gmap string DataFrame;
  csv_files : gmap string DataFrame
}.

(** The table in the CSV file that [path] names, if there is one. *)
Definition csv_at (path : string) (s : fs) : option DataFrame :=
  csv_files s !! resolve s path.

(** A resolution for the examples: a run of separators counts as one, as
    on a POSIX system. *)
Fixpoint collapse_slashes (path : string) : string :=
  match path with
  | EmptyString => EmptyString
  | String c rest =>
      let rest' := collapse_slashes rest in
      match rest' with
      | String c' _ =>
          if Ascii.eqb c "/"%char && Ascii.eqb c' "/"%char
          then rest' else String c rest'
      | EmptyString => String c EmptyString
      end
  end.

(** A directory of images sorted into one sub-directory per class is
    represented by the labels of the images found in it. *)
Definition image_dirs : Type := gmap string (list nat).

(** [flow_from_directory(directory=dir, ...)]: the labels of the iterator. *)
Definition flow_from_directory (dir : string) (d : image_dirs)
  : result (list nat) :=
  match d !! dir with
  | Some labels => Ok labels
  | None => Raise (FileNotFoundError dir)
  end.

(** [detecto.utils.xml_to_csv(xml_folder, output_file)]: flattens the
    folder into one table and writes it; a folder without XML files gives
    an empty table. *)
Definition xml_to_csv (xml_folder output_file : string) (s : fs) : fs :=
  {| resolve := resolve s;
     xml_folders := xml_folders s;
     csv_files :=
       <[resolve s output_file :=
           default [] (xml_folders s !! resolve s xml_folder)]> (csv_files s) |}.

(** [pd.read_csv(path)] *)
Definition read_csv (path : string) (s : fs) : result DataFrame :=
  match csv_at path s with
  | Some df => Ok df
  | None => Raise (FileNotFoundError path)
  end.

(** [df.to_csv(path, index=False)] *)
Definition to_csv (df : DataFrame) (path : string) (s : fs) : fs :=
  {| resolve := resolve s;
     xml_folders := xml_folders s;
     csv_files := <[resolve s path := df]> (csv_files s) |}.

End Files.

(** ** [TrainPanelSegmentationModel] *)
Module Trainer.
Import Np K Callbacks Pandas Files.

(** The attributes that [__init__] stores. The pretrained backbone and its
    layer dictionary belong to the engine and carry no data here. *)
Record TrainPanelSegmentationModel : Type := {
  no_of_epochs : Z;
  batch_size : Z;
  learning_rate : Q
}.

Definition __init__ (batch_size no_epochs : Z) (learning_rate : Q)
  : TrainPanelSegmentationModel :=
  {| no_of_epochs := no_epochs;
     batch_size := batch_size;
     learning_rate := learning_rate |}.

(** *** diceCoeff and diceCoeffLoss *)

Definition diceCoeff (y_true y_pred : tensor) (smooth : Q) : result npfloat :=
  prod ← multiply y_true y_pred;
  let intersection := sum_axis123 prod in
  let union := zip_with Qplus (sum_axis123 y_true) (sum_axis123 y_pred) in
  let dice :=
    mean_axis0 (zip_with (fun i u => true_divide (2 * i + smooth) (u + smooth))
                         intersection union) in
  Ok dice.

Definition diceCoeffLoss (y_true y_pred : tensor) : result npfloat :=
  d ← diceCoeff y_true y_pred 1;
  Ok (fsub (Fin 1) d).

(** *** What a training call hands to the engine *)

Record Adam : Type := { lr : Q; epsilon : Q }.

Record CompileArgs : Type := {
  loss : string;
  optimizer : Adam;
  metrics : list string
}.

Record FitArgs : Type := {
  epochs : Z;
  workers : Z;
  steps_per_epoch : Z;
  validation_steps : Z
}.

(** [datagen.flow(x, y, batch_size=...)]: Keras refuses an [x] and a [y] of
    different lengths. *)
Definition flow {A B} (x : list A) (y : list B) : result (list (A * B)) :=
  if decide (length x = length y) then Ok (zip x y)
  else Raise (ValueError "x (images tensor) and y (labels) should have the same length").

(** *** trainSegmentation *)

Record SegmentationFit : Type := {
  seg_train_mask : list (list npfloat);
  seg_val_mask : list (list npfloat);
  seg_compile : CompileArgs;
  seg_checkpoint : ModelCheckpoint;
  seg_fit : FitArgs
}.

(** [mask / np.max(mask)] *)
Definition normalize_mask (mask : tensor) : result (list (list npfloat)) :=
  m ← Np.max mask;
  Ok (divide_scalar mask m).

Definition segmentation_checkpoint (model_file_path : string) : ModelCheckpoint :=
  {| filepath := model_file_path;
     monitor := "val_loss";
     verbose := 1;
     save_best_only := true;
     mode := Max |}.

Definition trainSegmentation (self : TrainPanelSegmentationModel)
    (train_data train_mask val_data val_mask : tensor)
    (model_file_path : string) : result SegmentationFit :=
  train_mask ← normalize_mask train_mask;
  val_mask ← normalize_mask val_mask;
  _ ← flow train_data train_mask;
  _ ← flow val_data val_mask;
  let compile :=
    {| loss := "binary_crossentropy";
       optimizer := {| lr := learning_rate self; epsilon := 1 # 100000000 |};
       metrics := ["accuracy"; "diceCoeff"] |} in
  let no_of_training_images := Z.of_nat (length train_data) in
  let no_of_val_images := Z.of_nat (length val_data) in
  let checkpoint := segmentation_checkpoint model_file_path in
  steps ← floordiv no_of_training_images (batch_size self);
  val_steps ← floordiv no_of_val_images (batch_size self);
  Ok {| seg_train_mask := train_mask;
        seg_val_mask := val_mask;
        seg_compile := compile;
        seg_checkpoint := checkpoint;
        seg_fit := {| epochs := no_of_epochs self;
                      workers := 0;
                      steps_per_epoch := steps;
                      validation_steps := val_steps |} |}.

(** *** trainPanelClassifier *)

Record ClassifierFit : Type := {
  cls_compile : CompileArgs;
  cls_checkpoint : ModelCheckpoint;
  cls_fit : FitArgs
}.

Definition classifier_checkpoint (model_file_path : string) : ModelCheckpoint :=
  {| filepath := model_file_path;
     monitor := "val_accuracy";
     verbose := 1;
     save_best_only := true;
     mode := Max |}.

Definition trainPanelClassifier (self : TrainPanelSegmentationModel)
    (dirs : image_dirs) (train_path val_path : string)
    (model_file_path : string) : result ClassifierFit :=
  train_labels ← flow_from_directory train_path dirs;
  val_labels ← flow_from_directory val_path dirs;
  let no_of_training_images := Z.of_nat (length train_labels) in
  let no_of_val_images := Z.of_nat (length val_labels) in
  let compile :=
    {| loss := "categorical_crossentropy";
       optimizer := {| lr := 1 # 10000; epsilon := 1 # 100000000 |};
       metrics := ["accuracy"] |} in
  let checkpoint := classifier_checkpoint model_file_path in
  steps ← floordiv no_of_training_images (batch_size self);
  val_steps ← floordiv no_of_val_images (batch_size self);
  Ok {| cls_compile := compile;
        cls_checkpoint := checkpoint;
        cls_fit := {| epochs := no_of_epochs self;
                      workers := 0;
                      steps_per_epoch := steps;
                      validation_steps := val_steps |} |}.

(** *** trainMountingConfigClassifier *)

(** The inner loop: every picked row label is looked up in the table that
    was read and the row is appended to the resampled table. *)
Fixpoint append_rows (train_data resampled : DataFrame) (idx_to_duplicate : list nat)
  : result DataFrame :=
  match idx_to_duplicate with
  | [] => Ok resampled
  | idx :: rest =>
      dup ← loc train_data idx;
      append_rows train_data (concat_row resampled dup) rest
  end.

(** One turn of the outer loop, for the entry [(index, count)] of the
    class counts. *)
Definition resample_class (train_data : DataFrame) (class_count : list (string * nat))
    (st : DataFrame * Random.state) (item : string * nat)
  : result (DataFrame * Random.state) :=
  let number_times_resample := (series_max class_count - item.2)%nat in
  let class_index_list := index_of_class train_data item.1 in
  picked ← Random.choices st.2 class_index_list number_times_resample;
  resampled ← append_rows train_data st.1 picked.1;
  Ok (resampled, picked.2).

Fixpoint for_each {A S} (body : S -> A -> result S) (items : list A) (s : S) : result S :=
  match items with
  | [] => Ok s
  | x :: rest => s' ← body s x; for_each body rest s'
  end.

(** The oversampling of the table that was read, up to [reset_index]. *)
Definition oversample (g : Random.state) (train_data : DataFrame)
  : result (DataFrame * Random.state) :=
  let class_count := value_counts (class_column train_data) in
  r ← for_each (resample_class train_data class_count) class_count (train_data, g);
  Ok (reset_index r.1, r.2).

Definition labels_path (dir : string) : string := dir +:+ "/annotations.csv".

(** The format conversion of both data sets. *)
Definition convert_annotations (train_path val_path : string) (s : fs) : fs :=
  let val_labels_path := labels_path val_path in
  let train_labels_path := labels_path train_path in
  let s := xml_to_csv (train_path +:+ "/annotations/") train_labels_path s in
  xml_to_csv (val_path +:+ "/annotations/") val_labels_path s.

(** The class balancing: read, oversample, write back. *)
Definition balance_classes (train_path : string) (g : Random.state) (s : fs)
  : result (fs * Random.state) :=
  let train_labels_path := labels_path train_path in
  train_data ← read_csv train_labels_path s;
  r ← oversample g train_data;
  Ok (to_csv r.1 train_labels_path s, r.2).

Record DetectionFit : Type := {
  det_files : fs;
  det_random : Random.state;
  det_dataset : string * string;
  det_val_dataset : string * string;
  det_loader_batch_size : Z;
  det_classes : list string;
  det_epochs : Z;
  det_learning_rate : Q
}.

Definition trainMountingConfigClassifier (self : TrainPanelSegmentationModel)
    (train_path val_path : string) (g : Random.state) (s : fs)
  : result DetectionFit :=
  let val_labels_path := labels_path val_path in
  let train_labels_path := labels_path train_path in
  let s := convert_annotations train_path val_path s in
  r ← balance_classes train_path g s;
  Ok {| det_files := r.1;
        det_random := r.2;
        det_dataset := (train_labels_path, train_path +:+ "/images");
        det_val_dataset := (val_labels_path, val_path +:+ "/images");
        det_loader_batch_size := batch_size self;
        det_classes := ["ground-fixed"; "carport-fixed"; "rooftop-fixed";
                        "ground-single_axis_tracker"];
        det_epochs := no_of_epochs self;
        det_learning_rate := learning_rate self |}.

End Trainer.

(** ** matplotlib and the console, as a log of effects *)
Module Plt.
Import Np.

Inductive event : Type :=
| Print (text : string)
| Plot (ys : list npfloat) (label : option string)
| Xlabel (text : string)
| Ylabel (text : string)
| Legend
| Savefig (fname : string) (dpi : Z)
| Show.

(** A computation that appends to the log and may raise; what was logged
    before an exception stays logged. *)
Definition io (A : Type) : Type := list event -> result A * list event.

#[export] Instance io_ret : MRet io := fun A a log => (Ok a, log).

#[export] Instance io_bind : MBind io := fun A B k c log =>
  match c log with
  | (Ok a, log') => k a log'
  | (Raise e, log') => (Raise e, log')
  end.

Definition emit (e : event) : io unit := fun log => (Ok tt, log ++ [e]).

Definition throw {A} (e : exn) : io A := fun log => (Raise e, log).

(** [try: body except Exception as e: handler(e)] *)
Definition try_except {A} (body : io A) (handler : exn -> io A) : io A :=
  fun log =>
    match body log with
    | (Ok a, log') => (Ok a, log')
    | (Raise e, log') => handler e log'
    end.

Definition when (b : bool) (c : io unit) : io unit :=
  if b then c else mret tt.

Definition run {A} (c : io A) : result A * list event := c [].

(** [str(e)] *)
Definition str_exn (e : exn) : string :=
  match e with
  | KeyError (KStr k) => "'" +:+ k +:+ "'"
  | KeyError (KInt i) => pretty i
  | UnboundLocalError n => n
  | ValueError m | IndexError m | ZeroDivisionError m
  | InvalidArgumentError m => m
  | FileNotFoundError f => f
  end.

Definition savefigs (log : list event) : list string :=
  omap (fun e => match e with Savefig f _ => Some f | _ => None end) log.

Definition prints (log : list event) : list string :=
  omap (fun e => match e with Print t => Some t | _ => None end) log.

End Plt.

(** ** trainingStatistics *)
Module Stats.
Import Np Plt.

(** [results.history[key]] *)
Definition getitem (history : gmap string (list npfloat)) (key : string)
  : io (list npfloat) :=
  match history !! key with
  | Some v => mret v
  | None => throw (KeyError (KStr key))
  end.

(** The use of a local that is bound on the [mode == 1] paths only. *)
Definition local (name : string) (v : option (list npfloat)) : io (list npfloat) :=
  match v with
  | Some ys => mret ys
  | None => throw (UnboundLocalError name)
  end.

(** One single-curve figure. *)
Definition figure (ys : list npfloat) (fname : string) : io unit :=
  emit (Plot ys None);;
  emit (Xlabel "Epochs");;
  emit (Ylabel "Percentage");;
  emit (Savefig fname 300);;
  emit Show.

Definition trainingStatistics (history : gmap string (list npfloat)) (mode : Z)
  : io unit :=
  train_accuracy ← getitem history "accuracy";
  train_loss ← getitem history "loss";
  train_dice_coef ← (if Z.eqb mode 1
                     then v ← getitem history "diceCoeff"; mret (Some v)
                     else mret None);
  val ← try_except
         (val_accuracy ← getitem history "val_accuracy";
          val_loss ← getitem history "val_loss";
          val_dice_coef ← (if Z.eqb mode 1
                           then v ← getitem history "val_diceCoeff"; mret (Some v)
                           else mret None);
          mret (Some (val_accuracy, val_loss, val_dice_coef)))
         (fun e =>
            emit (Print "No validation metrics available.");;
            emit (Print (str_exn e));;
            mret None);
  when (Z.eqb mode 1)
       (ys ← local "train_dice_coef" train_dice_coef; figure ys "Train_dice_coef");;
  figure train_loss "Train_loss";;
  figure train_accuracy "Train_accuracy";;
  match val with
  | Some (val_accuracy, val_loss, val_dice_coef) =>
      when (Z.eqb mode 1)
           (ys ← local "val_dice_coef" val_dice_coef; figure ys "VAL_dice_coef");;
      figure val_loss "VAL_loss";;
      figure val_accuracy "VAL_accuracy"
  | None => mret tt
  end;;
  emit (Plot train_accuracy (Some "train_accuracy"));;
  emit (Plot train_loss (Some "train_loss"));;
  when (Z.eqb mode 1)
       (ys ← local "train_dice_coef" train_dice_coef;
        emit (Plot ys (Some "train_dice_coef")));;
  emit (Xlabel "Epochs");;
  emit (Ylabel "Percentage");;
  emit Legend;;
  emit (Savefig "Training statistics" 300);;
  emit Show;;
  match val with
  | Some (val_accuracy, val_loss, val_dice_coef) =>
      emit (Plot val_accuracy (Some "val_accuracy"));;
      emit (Plot val_loss (Some "val_loss"));;
      when (Z.eqb mode 1)
           (ys ← local "val_dice_coef" val_dice_coef;
            emit (Plot ys (Some "val_dice_coef")));;
      emit (Xlabel "Epochs");;
      emit (Ylabel "Percentage");;
      emit Legend;;
      emit (Savefig "Validation statistics" 300);;
      emit Show
  | None => mret tt
  end.

(** The artifacts of the training side and those of the validation side. *)
Definition training_artifacts (mode : Z) : list string :=
  (if Z.eqb mode 1 then ["Train_dice_coef"] else [])
  ++ ["Train_loss"; "Train_accuracy"; "Training statistics"].

Definition validation_artifacts : list string :=
  ["VAL_dice_coef"; "VAL_loss"; "VAL_accuracy"; "Validation statistics"].

End Stats.

(** ** Concrete inputs used by the examples below *)
Module Examples.
Import Np Callbacks Pandas Files Trainer.

(** A trainer built with a learning rate of 1e-3. *)
Definition trainer : TrainPanelSegmentationModel := __init__ 2 1 (1 # 1000).

(** Two images of two RGB pixels, and masks for them. *)
Definition images : tensor := [[1; 2; 3; 4; 5; 6]; [6; 5; 4; 3; 2; 1]]%Q.
Definition zero_masks : tensor := [[0; 0]; [0; 0]]%Q.
Definition masks : tensor := [[0; 255]; [51; 0]]%Q.

(** 105 training and 40 validation samples, batches of 32. *)
Definition trainer32 : TrainPanelSegmentationModel := __init__ 32 5 (1 # 10000).
Definition images105 : tensor := repeat [1; 2; 3]%Q 105.
Definition masks105 : tensor := repeat [1]%Q 105.
Definition images40 : tensor := repeat [1; 2; 3]%Q 40.
Definition masks40 : tensor := repeat [1]%Q 40.
Definition dirs105 : image_dirs :=
  <["train" := repeat 0%nat 105]> (<["val" := repeat 1%nat 40]> ∅).

(** The logs of four epochs, and the val_loss each of them reports. *)
Definition epoch_vals : list Q := [3; 2; 5; 5]%Q.
Definition epoch_logs : list logs_t :=
  map (fun v => <["loss" := Fin (1 # 2)]> (<["val_loss" := Fin v]> ∅)) epoch_vals.

(** The history of a segmentation run without validation data, and the
    history of a classifier run (no overlap coefficient). *)
Definition training_history : gmap string (list npfloat) :=
  <["accuracy" := [Fin (9 # 10)]]>
    (<["loss" := [Fin (3 # 10)]]> (<["diceCoeff" := [Fin (4 # 5)]]> ∅)).
Definition classifier_history : gmap string (list npfloat) :=
  <["accuracy" := [Fin (9 # 10)]]>
    (<["loss" := [Fin (3 # 10)]]>
       (<["val_accuracy" := [Fin (8 # 10)]]> (<["val_loss" := [Fin (4 # 10)]]> ∅))).

(** Annotations: two ground-fixed boxes and one carport-fixed box for
    training, one rooftop-fixed box for validation. *)
Definition box (file class : string) : AnnotationRecord :=
  {| filename := file; class_label := class;
     xmin := 10; ymin := 20; xmax := 110; ymax := 220 |}.
Definition train_rows : DataFrame :=
  [box "a.png" "ground-fixed"; box "b.png" "ground-fixed";
   box "c.png" "carport-fixed"].
Definition val_rows : DataFrame := [box "v.png" "rooftop-fixed"].
Definition disk : fs :=
  {| resolve := collapse_slashes;
     xml_folders := <["train/annotations/" := train_rows]>
                      (<["val/annotations/" := val_rows]> ∅);
     csv_files := ∅ |}.
Definition rng : Random.state :=
  {| Random.draws := fun n => (7 * n + 3)%nat; Random.cursor := 0 |}.
Definition dirs : image_dirs :=
  <["train" := [0; 1; 0; 1]%nat]> (<["val" := [0; 1]%nat]> ∅).

End Examples.

(** ** Further concrete inputs *)
Module MoreExamples.
Import Np Callbacks Pandas Files Trainer.


(** The training history of [Examples], without its overlap coefficient. *)
Definition plain_history : gmap string (list npfloat) :=
  <["accuracy" := [Fin (9 # 10)]]> (<["loss" := [Fin (3 # 10)]]> ∅).

(** A run whose validation loss goes down, and a classifier run. *)
Definition falling_logs : list logs_t :=
  map (fun v => <["loss" := Fin v]> (<["val_loss" := Fin v]> ∅))
      [9 # 10; 7 # 10; 7 # 10; 2 # 5]%Q.
Definition accuracy_logs : list logs_t :=
  map (fun v => <["val_accuracy" := Fin v]> ∅) [1 # 2; 4 # 5; 3 # 5]%Q.

End MoreExamples.

(** * Properties *)

(** ** Rationals and numpy floats *)
Section NumpyFacts.
Import Np K.

Lemma Fin_Qred_eq (a b : Q) : (a == b)%Q -> Fin (Qred a) = Fin (Qred b).
Proof. intros H. f_equal. by apply Qred_complete. Qed.

Lemma qmax_cases (a b : Q) :
  (qmax a b = a \/ qmax a b = b) /\ (a <= qmax a b)%Q /\ (b <= qmax a b)%Q.
Proof.
  unfold qmax. destruct (Qle_bool a b) eqn:E.
  - apply Qle_bool_iff in E. split; [by right|]. split; [done | apply Qle_refl].
  - split; [by left|]. split; [apply Qle_refl|].
    apply Qnot_lt_le. intros Hlt. apply Qlt_le_weak in Hlt.
    apply Qle_bool_iff in Hlt. congruence.
Qed.

Lemma fold_qmax_spec (xs : list Q) (x : Q) :
  In (fold_left qmax xs x) (x :: xs)
  /\ forall y, In y (x :: xs) -> (y <= fold_left qmax xs x)%Q.
Proof.
  revert x. induction xs as [|a xs IH]; intros x; simpl.
  - split; [by left|]. intros y [->|[]]. apply Qle_refl.
  - destruct (IH (qmax x a)) as [Hin Hle].
    destruct (qmax_cases x a) as [Hc [Hx Ha]]. split.
    + destruct Hin as [Hin|Hin]; [|by right; right].
      rewrite <- Hin. destruct Hc as [->| ->]; [by left | by right; left].
    + intros y [->|[->|Hy]].
      * eapply Qle_trans; [exact Hx|]. apply Hle. by left.
      * eapply Qle_trans; [exact Ha|]. apply Hle. by left.
      * apply Hle. by right.
Qed.

Lemma max_ok (t : tensor) :
  flatten t <> [] -> exists m, Np.max t = Ok m /\ is_max m t.
Proof.
  unfold Np.max, is_max. destruct (flatten t) as [|x xs]; [done|]. intros _.
  exists (fold_left qmax xs x). split; [done|]. apply fold_qmax_spec.
Qed.

Lemma all_zero_flatten (t : tensor) :
  all_zero t -> Forall (fun x => (x == 0)%Q) (flatten t).
Proof.
  unfold all_zero, flatten. induction 1; simpl; [constructor|].
  apply Forall_app. by split.
Qed.

Lemma divide_all_zero (t : tensor) (m : Q) :
  all_zero t -> (m == 0)%Q ->
  divide_scalar t m = map (map (fun _ => NaN)) t.
Proof.
  intros Ht Hm. unfold divide_scalar.
  apply map_ext_Forall. eapply Forall_impl; [exact Ht|].
  intros row Hrow. apply map_ext_Forall. eapply Forall_impl; [exact Hrow|].
  intros x Hx. unfold true_divide.
  apply Qeq_bool_iff in Hm, Hx. by rewrite Hm, Hx.
Qed.

Lemma normalize_mask_ok (mask : tensor) :
  flatten mask <> [] ->
  exists m, is_max m mask
            /\ Trainer.normalize_mask mask = Ok (divide_scalar mask m).
Proof.
  intros H. destruct (max_ok mask H) as (m & Hm & Hmax).
  exists m. split; [done|]. unfold Trainer.normalize_mask. by rewrite Hm.
Qed.

End NumpyFacts.

(** ** The segmentation and classification trainers *)
Section TrainerFacts.
Import Np K Callbacks Files Trainer.

Lemma floordiv_ok (a b : Z) : b <> 0 -> floordiv a b = Ok (a / b).
Proof. intros H. unfold floordiv. by rewrite (proj2 (Z.eqb_neq b 0) H). Qed.

Lemma flow_ok {A B} (x : list A) (y : list B) :
  length x = length y -> flow x y = Ok (zip x y).
Proof. intros H. unfold flow. by rewrite decide_True. Qed.

Lemma length_divide_scalar (t : tensor) (m : Q) :
  length (divide_scalar t m) = length t.
Proof. unfold divide_scalar. by rewrite length_map. Qed.

(** On well-formed arguments [trainSegmentation] reaches the engine, with
    these arguments. *)
Lemma trainSegmentation_ok self (td tm vd vm : tensor) path :
  flatten tm <> [] -> flatten vm <> [] ->
  length td = length tm -> length vd = length vm ->
  batch_size self <> 0 ->
  exists m_t m_v,
    is_max m_t tm /\ is_max m_v vm /\
    trainSegmentation self td tm vd vm path =
    Ok {| seg_train_mask := divide_scalar tm m_t;
          seg_val_mask := divide_scalar vm m_v;
          seg_compile :=
            {| loss := "binary_crossentropy";
               optimizer := {| lr := learning_rate self; epsilon := 1 # 100000000 |};
               metrics := ["accuracy"; "diceCoeff"] |};
          seg_checkpoint := segmentation_checkpoint path;
          seg_fit :=
            {| epochs := no_of_epochs self;
               workers := 0;
               steps_per_epoch := Z.of_nat (length td) / batch_size self;
               validation_steps := Z.of_nat (length vd) / batch_size self |} |}.
Proof.
  intros Htm Hvm Hlt Hlv Hb.
  destruct (normalize_mask_ok tm Htm) as (m_t & Hmt & Ht).
  destruct (normalize_mask_ok vm Hvm) as (m_v & Hmv & Hv).
  exists m_t, m_v. split; [done|]. split; [done|].
  unfold trainSegmentation. rewrite Ht, Hv. simpl.
  rewrite !flow_ok by (by rewrite length_divide_scalar). simpl.
  rewrite !floordiv_ok by done. reflexivity.
Qed.

Lemma trainPanelClassifier_ok self (dirs : image_dirs) train_path val_path path
    (train_labels val_labels : list nat) :
  dirs !! train_path = Some train_labels ->
  dirs !! val_path = Some val_labels ->
  batch_size self <> 0 ->
  trainPanelClassifier self dirs train_path val_path path =
  Ok {| cls_compile :=
          {| loss := "categorical_crossentropy";
             optimizer := {| lr := 1 # 10000; epsilon := 1 # 100000000 |};
             metrics := ["accuracy"] |};
        cls_checkpoint := classifier_checkpoint path;
        cls_fit :=
          {| epochs := no_of_epochs self;
             workers := 0;
             steps_per_epoch := Z.of_nat (length train_labels) / batch_size self;
             validation_steps := Z.of_nat (length val_labels) / batch_size self |} |}.
Proof.
  intros Ht Hv Hb. unfold trainPanelClassifier, flow_from_directory.
  rewrite Ht, Hv. simpl. rewrite !floordiv_ok by done. reflexivity.
Qed.

(** C1 (as amended). The normalization of [trainSegmentation] is not
    guarded. On masks with at least one entry the call reaches the engine;
    each mask has been divided by the largest entry of the whole array (one
    divisor per call, not one per image), and a mask whose entries are all
    zero has become nan in every position, with no exception raised. *)
Theorem normalization_divides_by_batch_max_unguarded
    self (train_data train_mask val_data val_mask : tensor) path :
  flatten train_mask <> [] -> flatten val_mask <> [] ->
  length train_data = length train_mask -> length val_data = length val_mask ->
  batch_size self <> 0 ->
  exists r m_t m_v,
    trainSegmentation self train_data train_mask val_data val_mask path = Ok r
    /\ is_max m_t train_mask /\ is_max m_v val_mask
    /\ seg_train_mask r = divide_scalar train_mask m_t
    /\ seg_val_mask r = divide_scalar val_mask m_v
    /\ (all_zero train_mask ->
        seg_train_mask r = map (map (fun _ => NaN)) train_mask)
    /\ (all_zero val_mask ->
        seg_val_mask r = map (map (fun _ => NaN)) val_mask).
Proof.
  intros Htm Hvm Hlt Hlv Hb.
  destruct (trainSegmentation_ok self _ _ _ _ path Htm Hvm Hlt Hlv Hb)
    as (m_t & m_v & Hmt & Hmv & Hrun).
  eexists; exists m_t, m_v. split; [exact Hrun|]. simpl.
  repeat split; try apply Hmt; try apply Hmv.
  - intros Hz. apply divide_all_zero; [done|].
    destruct Hmt as [Hin _]. apply all_zero_flatten in Hz.
    rewrite Forall_forall in Hz. apply Hz. by apply list_elem_of_In.
  - intros Hz. apply divide_all_zero; [done|].
    destruct Hmv as [Hin _]. apply all_zero_flatten in Hz.
    rewrite Forall_forall in Hz. apply Hz. by apply list_elem_of_In.
Qed.

End TrainerFacts.

Section TrainerClaims.
Import Np K Callbacks Files Trainer.

(** C1 (as stated, refuted). Both mask arrays are zero everywhere, and the
    call raises nothing: it goes on to the engine with masks made of nan. *)
Lemma all_zero_mask_not_guarded :
  all_zero Examples.zero_masks
  /\ ~ raises (trainSegmentation Examples.trainer Examples.images Examples.zero_masks
                 Examples.images Examples.zero_masks "model.h5")
  /\ exists r,
       trainSegmentation Examples.trainer Examples.images Examples.zero_masks
         Examples.images Examples.zero_masks "model.h5" = Ok r
       /\ seg_train_mask r = [[NaN; NaN]; [NaN; NaN]]
       /\ seg_val_mask r = [[NaN; NaN]; [NaN; NaN]].
Proof.
  split; [|split].
  - repeat constructor.
  - intros [e He]. vm_compute in He. discriminate He.
  - eexists. split; [vm_compute; reflexivity|]. split; reflexivity.
Qed.

Lemma normalization_divides_by_batch_max_unguarded_witness :
  exists r,
    trainSegmentation Examples.trainer Examples.images Examples.masks
      Examples.images Examples.zero_masks "model.h5" = Ok r
    /\ seg_train_mask r = [[Fin 0; Fin 1]; [Fin (1 # 5); Fin 0]]
    /\ seg_val_mask r = [[NaN; NaN]; [NaN; NaN]].
Proof.
  destruct (normalization_divides_by_batch_max_unguarded
              Examples.trainer Examples.images Examples.masks
              Examples.images Examples.zero_masks "model.h5")
    as (r & m_t & m_v & Hr & _ & _ & _ & _ & _ & Hz);
    [vm_compute; discriminate | vm_compute; discriminate
    | reflexivity | reflexivity | vm_compute; discriminate |].
  exists r. split; [exact Hr|]. split.
  - vm_compute in Hr. injection Hr as <-. reflexivity.
  - apply Hz. repeat constructor.
Defined.

(** C8. The number of steps and of validation steps that
    [trainSegmentation] and [trainPanelClassifier] pass to [fit] is the
    floor of the sample count by the batch size: the [n mod b] samples that
    do not fill a batch are left out of the epoch. 105 samples in batches
    of 32 make 3 steps. *)
Theorem steps_per_epoch_is_floor_division
    self (train_data train_mask val_data val_mask : tensor) path
    (dirs : image_dirs) train_path val_path (train_labels val_labels : list nat) :
  flatten train_mask <> [] -> flatten val_mask <> [] ->
  length train_data = length train_mask -> length val_data = length val_mask ->
  dirs !! train_path = Some train_labels -> dirs !! val_path = Some val_labels ->
  0 < batch_size self ->
  let b := batch_size self in
  let dropped (n steps : Z) := n - b * steps = n mod b /\ 0 <= n mod b < b in
  (exists r,
     trainSegmentation self train_data train_mask val_data val_mask path = Ok r
     /\ steps_per_epoch (seg_fit r) = Z.of_nat (length train_data) / b
     /\ validation_steps (seg_fit r) = Z.of_nat (length val_data) / b
     /\ dropped (Z.of_nat (length train_data)) (steps_per_epoch (seg_fit r))
     /\ dropped (Z.of_nat (length val_data)) (validation_steps (seg_fit r)))
  /\ (exists c,
     trainPanelClassifier self dirs train_path val_path path = Ok c
     /\ steps_per_epoch (cls_fit c) = Z.of_nat (length train_labels) / b
     /\ validation_steps (cls_fit c) = Z.of_nat (length val_labels) / b
     /\ dropped (Z.of_nat (length train_labels)) (steps_per_epoch (cls_fit c))
     /\ dropped (Z.of_nat (length val_labels)) (validation_steps (cls_fit c)))
  /\ floordiv 105 32 = Ok 3.
Proof.
  intros Htm Hvm Hlt Hlv Hdt Hdv Hb b dropped.
  assert (Hb0 : batch_size self <> 0) by lia.
  assert (Hdrop : forall n, dropped n (n / b)).
  { intros n. unfold dropped. split; [|by apply Z.mod_pos_bound].
    rewrite (Z.div_mod n b) at 1 by done. lia. }
  split; [|split; [|reflexivity]].
  - destruct (trainSegmentation_ok self _ _ _ _ path Htm Hvm Hlt Hlv Hb0)
      as (m_t & m_v & _ & _ & Hrun).
    eexists. split; [exact Hrun|]. simpl. auto.
  - eexists. split; [by apply trainPanelClassifier_ok|]. simpl. auto.
Qed.

Lemma steps_per_epoch_is_floor_division_witness :
  (exists r,
     trainSegmentation Examples.trainer32 Examples.images105 Examples.masks105
       Examples.images40 Examples.masks40 "model.h5" = Ok r
     /\ steps_per_epoch (seg_fit r) = 3 /\ validation_steps (seg_fit r) = 1)
  /\ (exists c,
     trainPanelClassifier Examples.trainer32 Examples.dirs105 "train" "val"
       "model.h5" = Ok c
     /\ steps_per_epoch (cls_fit c) = 3 /\ validation_steps (cls_fit c) = 1).
Proof.
  destruct (steps_per_epoch_is_floor_division
              Examples.trainer32 Examples.images105 Examples.masks105
              Examples.images40 Examples.masks40 "model.h5"
              Examples.dirs105 "train" "val" (repeat 0%nat 105) (repeat 1%nat 40))
    as ((r & Hr & Hs & Hv & _) & (c & Hc & Hcs & Hcv & _) & _);
    [vm_compute; discriminate | vm_compute; discriminate
    | reflexivity | reflexivity | reflexivity | reflexivity | reflexivity |].
  split.
  - exists r. split; [exact Hr|]. split; [exact Hs | exact Hv].
  - exists c. split; [exact Hc|]. split; [exact Hcs | exact Hcv].
Defined.

End TrainerClaims.

(** ** The overlap coefficient *)
Section DiceFacts.
Import Np K Trainer.

Lemma qsum_zero (l : list Q) :
  Forall (fun x => (x == 0)%Q) l -> (qsum l == 0)%Q.
Proof.
  induction 1 as [|x l Hx _ IH]; simpl; [reflexivity|].
  rewrite Hx, IH. reflexivity.
Qed.

Lemma zip_mult_zero (a b : list Q) :
  Forall (fun x => (x == 0)%Q) a ->
  Forall (fun x => (x == 0)%Q) (zip_with Qmult a b).
Proof.
  intros Ha. revert b. induction Ha as [|x a Hx _ IH]; intros [|y b]; simpl;
    constructor; [|apply IH].
  rewrite Hx. ring.
Qed.

(** The ratio of one sample whose truth and prediction are zero. *)
Lemma sample_ratio_zero (a b : list Q) (smooth : Q) :
  Forall (fun x => (x == 0)%Q) a -> Forall (fun x => (x == 0)%Q) b ->
  ~ (smooth == 0)%Q ->
  ~ (qsum a + qsum b + smooth == 0)%Q
  /\ true_divide (2 * qsum (zip_with Qmult a b) + smooth)
                 (qsum a + qsum b + smooth) = Fin 1.
Proof.
  intros Ha Hb Hs.
  pose proof (qsum_zero _ Ha) as Hsa. pose proof (qsum_zero _ Hb) as Hsb.
  pose proof (qsum_zero _ (zip_mult_zero a b Ha)) as Hi.
  assert (Hden : (qsum a + qsum b + smooth == smooth)%Q).
  { rewrite Hsa, Hsb. ring. }
  split; [by rewrite Hden|].
  unfold true_divide.
  destruct (Qeq_bool (qsum a + qsum b + smooth) 0) eqn:E.
  { apply Qeq_bool_iff in E. rewrite Hden in E. contradiction. }
  change (Fin 1) with (Fin (Qred 1)). apply Fin_Qred_eq.
  rewrite Hden, Hi. field. exact Hs.
Qed.

Lemma ratios_zero (t p : tensor) (smooth : Q) :
  all_zero t -> all_zero p -> length t = length p -> ~ (smooth == 0)%Q ->
  zip_with (fun i u => true_divide (2 * i + smooth) (u + smooth))
           (sum_axis123 (zip_with (zip_with Qmult) t p))
           (zip_with Qplus (sum_axis123 t) (sum_axis123 p))
  = repeat (Fin 1) (length t).
Proof.
  intros Ht. revert p. induction Ht as [|a t Ha _ IH]; intros p Hp Hlen Hs.
  - reflexivity.
  - destruct p as [|b p]; [discriminate|]. inversion Hp; subst.
    simpl. f_equal.
    + by apply sample_ratio_zero.
    + apply IH; [done | by injection Hlen | done].
Qed.

Lemma sum_of_ones (n : nat) (a : Q) :
  exists b, fold_left fadd (repeat (Fin 1) n) (Fin a) = Fin b
            /\ (b == a + inject_Z (Z.of_nat n))%Q.
Proof.
  revert a. induction n as [|n IH]; intros a.
  - exists a. split; [reflexivity|]. simpl. ring.
  - simpl repeat. simpl fold_left.
    destruct (IH (Qred (a + 1))) as (b & Hb & Hq).
    exists b. split; [exact Hb|].
    rewrite Hq, Qred_correct, Nat2Z.inj_succ. unfold Z.succ.
    rewrite inject_Z_plus. ring.
Qed.

Lemma mean_of_ones (n : nat) :
  (0 < n)%nat -> mean_axis0 (repeat (Fin 1) n) = Fin 1.
Proof.
  intros Hn. unfold mean_axis0. rewrite repeat_length.
  destruct (sum_of_ones n 0) as (b & -> & Hb). unfold fdiv_count, true_divide.
  assert (Hnz : ~ (inject_Z (Z.of_nat n) == 0)%Q).
  { change 0%Q with (inject_Z 0). rewrite inject_Z_injective. lia. }
  destruct (Qeq_bool (inject_Z (Z.of_nat n)) 0) eqn:E.
  { apply Qeq_bool_iff in E. contradiction. }
  change (Fin 1) with (Fin (Qred 1)). apply Fin_Qred_eq.
  rewrite Hb. field. exact Hnz.
Qed.

Lemma multiply_ok (a b : tensor) :
  shape a = shape b -> multiply a b = Ok (zip_with (zip_with Qmult) a b).
Proof. intros H. unfold multiply. by rewrite decide_True. Qed.

Lemma shape_length (a b : tensor) : shape a = shape b -> length a = length b.
Proof. unfold shape. intros H. by rewrite <- (length_map length a), H, length_map. Qed.

(** C6. On truth and prediction arrays that are zero everywhere (of one
    shape, with at least one sample) [diceCoeff] with smoothing 1 divides
    by a non-zero denominator in every sample, and its value is exactly 1. *)
Theorem diceCoeff_all_zero_is_one (y_true y_pred : tensor) :
  all_zero y_true -> all_zero y_pred ->
  shape y_true = shape y_pred -> y_true <> [] ->
  Forall (fun u => ~ (u + 1 == 0)%Q)
         (zip_with Qplus (sum_axis123 y_true) (sum_axis123 y_pred))
  /\ diceCoeff y_true y_pred 1 = Ok (Fin 1).
Proof.
  intros Ht Hp Hshape Hne. split.
  - clear Hne. apply shape_length in Hshape. revert y_pred Hp Hshape.
    induction Ht as [|a t Ha _ IH]; intros [|b p] Hp Hlen; simpl;
      try constructor; try discriminate.
    + inversion Hp; subst. by apply (sample_ratio_zero a b 1).
    + inversion Hp; subst. apply IH; [done | by injection Hlen].
  - unfold diceCoeff. rewrite multiply_ok by done. simpl.
    rewrite ratios_zero; [|done|done|by apply shape_length|done].
    f_equal. apply mean_of_ones. destruct y_true; [done | simpl; lia].
Qed.

Lemma diceCoeff_all_zero_is_one_witness :
  diceCoeff Examples.zero_masks Examples.zero_masks 1 = Ok (Fin 1).
Proof.
  apply (diceCoeff_all_zero_is_one Examples.zero_masks Examples.zero_masks);
    [repeat constructor | repeat constructor | reflexivity | discriminate].
Defined.

Lemma fsub_one_Fin (q : Q) : fsub (Fin 1) (Fin q) = Fin (Qred (1 - q)).
Proof.
  unfold fsub, fneg, fadd. apply Fin_Qred_eq. rewrite Qred_correct. reflexivity.
Qed.

(** C7. On arrays of one shape [diceCoeffLoss] returns, and what it
    returns is 1 minus what [diceCoeff] returns on the same arrays with the
    smoothing constant 1. *)
Theorem diceCoeffLoss_is_one_minus_diceCoeff (y_true y_pred : tensor) :
  shape y_true = shape y_pred ->
  exists d,
    diceCoeff y_true y_pred 1 = Ok d
    /\ diceCoeffLoss y_true y_pred = Ok (fsub (Fin 1) d)
    /\ forall q, d = Fin q -> fsub (Fin 1) d = Fin (Qred (1 - q)).
Proof.
  intros Hshape. unfold diceCoeffLoss, diceCoeff.
  rewrite multiply_ok by done. simpl. eexists.
  split; [reflexivity|]. split; [reflexivity|].
  intros q ->. apply fsub_one_Fin.
Qed.

Lemma diceCoeffLoss_is_one_minus_diceCoeff_witness :
  diceCoeff [[1; 0]; [0; 1]]%Q [[1; 0]; [0; 0]]%Q 1 = Ok (Fin (3 # 4))
  /\ diceCoeffLoss [[1; 0]; [0; 1]]%Q [[1; 0]; [0; 0]]%Q = Ok (Fin (1 # 4)).
Proof.
  destruct (diceCoeffLoss_is_one_minus_diceCoeff
              [[1; 0]; [0; 1]]%Q [[1; 0]; [0; 0]]%Q) as (d & Hd & Hl & _);
    [reflexivity|].
  vm_compute in Hd. injection Hd as <-. split; [reflexivity | exact Hl].
Defined.

End DiceFacts.

(** ** Checkpointing *)
Section CheckpointFacts.
Import Np Callbacks Trainer.

Lemma bind_Ok {A B} (c : result A) (k : A -> result B) (b : B) :
  c ≫= k = Ok b -> exists a, c = Ok a /\ k a = Ok b.
Proof. destruct c as [a|e]; [by exists a | discriminate]. Qed.

Lemma fgt_Fin (a b : Q) : fgt (Fin a) (Fin b) = true <-> (b < a)%Q.
Proof.
  simpl. rewrite negb_true_iff. split.
  - intros H. apply Qnot_le_lt. intros Hle. apply Qle_bool_iff in Hle. congruence.
  - intros H. destruct (Qle_bool a b) eqn:E; [|done].
    apply Qle_bool_iff in E. exfalso. by apply (Qlt_not_le b a).
Qed.

(** After an epoch that reported [v0], a later value beats the new best
    exactly when it beats the old best and [v0]. *)
Lemma fgt_after_epoch (best : npfloat) (v0 v : Q) :
  fgt (Fin v) (if fgt (Fin v0) best then Fin v0 else best) = true
  <-> fgt (Fin v) best = true /\ (v0 < v)%Q.
Proof.
  destruct (fgt (Fin v0) best) eqn:E.
  - rewrite fgt_Fin. split; [|tauto]. intros Hlt. split; [|done].
    destruct best as [b| | |]; try done.
    apply fgt_Fin. apply fgt_Fin in E. by apply Qlt_trans with v0.
  - split; [|tauto]. intros Hgt. split; [done|].
    destruct best as [b| | |]; try done.
    apply fgt_Fin in Hgt. apply Qle_lt_trans with b; [|done].
    apply Qnot_lt_le. intros Hlt. apply fgt_Fin in Hlt. congruence.
Qed.

Lemma run_from_written (cb : ModelCheckpoint) (epochs : list logs_t) (vals : list Q) :
  save_best_only cb = true -> mode cb = Max ->
  Forall2 (fun logs v => logs !! monitor cb = Some (Fin v)) epochs vals ->
  forall (best : npfloat) (i : nat) (v : Q),
    vals !! i = Some v ->
    (run_from cb best epochs !! i = Some true
     <-> fgt (Fin v) best = true
         /\ forall j w, (j < i)%nat -> vals !! j = Some w -> (w < v)%Q).
Proof.
  intros Hsave Hmode. induction 1 as [|logs v0 epochs vals Hlog _ IH];
    intros best i v Hi; [done|].
  simpl run_from. unfold on_epoch_end. rewrite Hsave, Hlog, Hmode.
  change (monitor_op Max) with fgt.
  destruct i as [|i]; simpl in Hi.
  - injection Hi as ->. destruct (fgt (Fin v) best); simpl.
    + split; [|done]. intros _. split; [done|]. intros j w Hj. lia.
    + split; [done|]. intros [? _]. done.
  - pose proof (fgt_after_epoch best v0 v) as Hafter.
    assert (Hgoal :
      (fgt (Fin v) best = true /\ (v0 < v)%Q)
      /\ (forall j w, (j < i)%nat -> vals !! j = Some w -> (w < v)%Q)
      <-> fgt (Fin v) best = true
          /\ forall j w, (j < S i)%nat -> (v0 :: vals) !! j = Some w -> (w < v)%Q).
    { split.
      - intros [[Hb H0] Hprev]. split; [done|]. intros [|j] w Hj Hw; simpl in Hw.
        + by injection Hw as <-.
        + apply (Hprev j); [lia | done].
      - intros [Hb Hprev]. split; [split; [done|]|].
        + apply (Hprev 0%nat); [lia | done].
        + intros j w Hj Hw. apply (Hprev (S j)); [lia | done]. }
    destruct (fgt (Fin v0) best); simpl; rewrite (IH _ i v Hi), Hafter;
      exact Hgoal.
Qed.

Lemma length_run_from (cb : ModelCheckpoint) (best : npfloat) (epochs : list logs_t) :
  length (run_from cb best epochs) = length epochs.
Proof.
  revert best. induction epochs as [|logs epochs IH]; intros best; [done|].
  simpl. destruct (on_epoch_end cb best logs). simpl. by rewrite IH.
Qed.

Lemma trainSegmentation_checkpoint self (td tm vd vm : tensor) path r :
  trainSegmentation self td tm vd vm path = Ok r ->
  seg_checkpoint r = segmentation_checkpoint path.
Proof.
  unfold trainSegmentation. intros H.
  do 6 (apply bind_Ok in H as (? & _ & H)).
  by injection H as <-.
Qed.

(** C2. The checkpoint that [trainSegmentation] configures monitors the
    metric named val_loss with the mode in which higher is better, keeps
    the best only and writes to [model_file_path]. Over a run whose epochs
    each report a finite val_loss, the file is written after an epoch
    exactly when the value of that epoch is strictly greater than the value
    of every earlier epoch of the run. *)
Theorem checkpoint_written_iff_strict_improvement
    (model_file_path : string) (epochs : list logs_t) (vals : list Q) :
  Forall2 (fun logs v => logs !! "val_loss" = Some (Fin v)) epochs vals ->
  let cb := segmentation_checkpoint model_file_path in
  (forall self td tm vd vm r,
      trainSegmentation self td tm vd vm model_file_path = Ok r ->
      seg_checkpoint r = cb)
  /\ monitor cb = "val_loss" /\ mode cb = Max /\ save_best_only cb = true
  /\ filepath cb = model_file_path
  /\ length (Callbacks.run cb epochs) = length epochs
  /\ forall i v,
       vals !! i = Some v ->
       (Callbacks.run cb epochs !! i = Some true
        <-> forall j w, (j < i)%nat -> vals !! j = Some w -> (w < v)%Q).
Proof.
  intros Hlogs cb. split.
  { intros self td tm vd vm r. apply trainSegmentation_checkpoint. }
  do 4 (split; [reflexivity|]). split; [apply length_run_from|].
  intros i v Hi. unfold Callbacks.run.
  rewrite (run_from_written cb epochs vals eq_refl eq_refl Hlogs _ i v Hi).
  simpl. tauto.
Qed.

Lemma checkpoint_written_iff_strict_improvement_witness :
  Callbacks.run (segmentation_checkpoint "model.h5") Examples.epoch_logs !! 2%nat
  = Some true.
Proof.
  destruct (checkpoint_written_iff_strict_improvement
              "model.h5" Examples.epoch_logs Examples.epoch_vals)
    as (_ & _ & _ & _ & _ & _ & Hiff); [repeat constructor|].
  apply (Hiff 2%nat 5%Q); [reflexivity|].
  intros [|[|j]] w Hj Hw; [| |lia]; injection Hw as <-; reflexivity.
Defined.

End CheckpointFacts.

(** ** The statistics reporter *)
Section StatsFacts.
Import Np Plt Stats.

Lemma getitem_Some (history : gmap string (list npfloat)) key v log :
  history !! key = Some v -> getitem history key log = (Ok v, log).
Proof. intros H. unfold getitem. by rewrite H. Qed.

Lemma getitem_None (history : gmap string (list npfloat)) key log :
  history !! key = None -> getitem history key log = (Raise (KeyError (KStr key)), log).
Proof. intros H. unfold getitem. by rewrite H. Qed.

(** C9. On a history that has the training keys (accuracy, loss and, for
    mode 1, diceCoeff) and no key that starts with val_,
    [trainingStatistics] returns without an exception; it prints the
    warning and the missing key, and the figures it saves are the
    training-side ones only. *)
Theorem trainingStatistics_without_validation
    (history : gmap string (list npfloat)) (mode : Z) :
  is_Some (history !! "accuracy") ->
  is_Some (history !! "loss") ->
  (mode = 1 -> is_Some (history !! "diceCoeff")) ->
  (forall key, String.prefix "val_" key = true -> history !! key = None) ->
  exists log,
    Plt.run (trainingStatistics history mode) = (Ok tt, log)
    /\ prints log = ["No validation metrics available."; "'val_accuracy'"]
    /\ savefigs log = training_artifacts mode
    /\ forall f, In f (savefigs log) -> ~ In f validation_artifacts.
Proof.
  intros [acc Hacc] [los Hlos] Hdice Hval.
  assert (Hva : history !! "val_accuracy" = None) by (by apply Hval).
  assert (Hclean : forall fs : list string,
             fs = training_artifacts 1 \/ fs = training_artifacts 0 ->
             forall f, In f fs -> ~ In f validation_artifacts).
  { intros fs [-> | ->] f Hf Hin; simpl in Hf, Hin;
      repeat (destruct Hf as [<-|Hf]; [intuition discriminate|]); done. }
  unfold Plt.run, trainingStatistics, training_artifacts, getitem.
  rewrite Hacc, Hlos, Hva.
  destruct (Z.eqb mode 1) eqn:E.
  - apply Z.eqb_eq in E. destruct (Hdice E) as [dice Hd]. rewrite Hd.
    eexists. split; [reflexivity|]. split; [reflexivity|]. split; [reflexivity|].
    apply Hclean. by left.
  - eexists. split; [reflexivity|]. split; [reflexivity|]. split; [reflexivity|].
    apply Hclean. by right.
Qed.

Lemma trainingStatistics_without_validation_witness :
  exists log,
    Plt.run (trainingStatistics Examples.training_history 1) = (Ok tt, log)
    /\ savefigs log
       = ["Train_dice_coef"; "Train_loss"; "Train_accuracy"; "Training statistics"].
Proof.
  destruct (trainingStatistics_without_validation Examples.training_history 1)
    as (log & Hrun & _ & Hfigs & _).
  - eexists. reflexivity.
  - eexists. reflexivity.
  - intros _. eexists. reflexivity.
  - intros key Hkey. unfold Examples.training_history.
    rewrite !lookup_insert_ne by (intros <-; discriminate Hkey).
    apply lookup_empty.
  - exists log. split; [exact Hrun | exact Hfigs].
Defined.

(** C10. With mode 1 and a history without the key diceCoeff,
    [trainingStatistics] ends in a [KeyError] that nothing catches, before
    any effect: nothing is printed, plotted or saved. When accuracy and
    loss are present the missing key reported is diceCoeff. Only the
    lookups of the validation keys are inside the [try]. *)
Theorem trainingStatistics_mode1_needs_diceCoeff
    (history : gmap string (list npfloat)) :
  history !! "diceCoeff" = None ->
  (exists key,
      Plt.run (trainingStatistics history 1) = (Raise (KeyError (KStr key)), []))
  /\ (is_Some (history !! "accuracy") -> is_Some (history !! "loss") ->
      Plt.run (trainingStatistics history 1)
      = (Raise (KeyError (KStr "diceCoeff")), [])).
Proof.
  intros Hd. unfold Plt.run, trainingStatistics, getitem. rewrite Hd. split.
  - destruct (history !! "accuracy"); [|by eexists].
    destruct (history !! "loss"); by eexists.
  - intros [acc ->] [los ->]. reflexivity.
Qed.

Lemma trainingStatistics_mode1_needs_diceCoeff_witness :
  Plt.run (trainingStatistics Examples.classifier_history 1)
  = (Raise (KeyError (KStr "diceCoeff")), []).
Proof.
  apply (trainingStatistics_mode1_needs_diceCoeff Examples.classifier_history);
    [reflexivity | eexists; reflexivity | eexists; reflexivity].
Defined.

End StatsFacts.

(** ** Class balancing *)
Section OversampleFacts.
Import Pandas Files Trainer.
#[local] Set Warnings "-clear-no-such-hyp".

Lemma count_of_app (c : string) (l1 l2 : list string) :
  count_of c (l1 ++ l2) = (count_of c l1 + count_of c l2)%nat.
Proof. unfold count_of. by rewrite filter_app, length_app. Qed.

Lemma class_column_app (a b : DataFrame) :
  class_column (a ++ b) = class_column a ++ class_column b.
Proof. apply map_app. Qed.

Lemma elem_of_class_column (df : DataFrame) (c : string) :
  c ∈ class_column df <-> exists r, r ∈ df /\ class_label r = c.
Proof.
  unfold class_column. change (map class_label df) with (class_label <$> df).
  rewrite list_elem_of_fmap. naive_solver.
Qed.

(** Rows of one class count for that class only. *)
Lemma count_of_one_class (c c' : string) (rows : DataFrame) :
  Forall (fun r => class_label r = c') rows ->
  count_of c (class_column rows) = if decide (c' = c) then length rows else 0%nat.
Proof.
  unfold count_of. induction 1 as [|r rows Hr _ IH]; simpl.
  - by destruct (decide (c' = c)).
  - rewrite filter_cons. destruct (decide (class_label r = c)) as [Hc|Hc]; simpl;
      rewrite IH; destruct (decide (c' = c)); congruence.
Qed.

Lemma elem_of_unique (col : list string) (c : string) : c ∈ unique col <-> c ∈ col.
Proof.
  induction col as [|x col IH]; simpl; [done|].
  rewrite !elem_of_cons, list_elem_of_filter, IH.
  destruct (decide (c = x)); naive_solver.
Qed.

Lemma NoDup_unique (col : list string) : NoDup (unique col).
Proof.
  induction col as [|x col IH]; simpl; [constructor|].
  apply NoDup_cons. split; [|by apply NoDup_filter].
  rewrite list_elem_of_filter. naive_solver.
Qed.

Lemma value_counts_Permutation (col : list string) :
  value_counts col ≡ₚ (fun c => (c, count_of c col)) <$> unique col.
Proof. unfold value_counts. apply merge_sort_Permutation. Qed.

Lemma elem_of_value_counts (col : list string) (c : string) (n : nat) :
  (c, n) ∈ value_counts col <-> c ∈ col /\ n = count_of c col.
Proof.
  rewrite value_counts_Permutation, list_elem_of_fmap.
  setoid_rewrite elem_of_unique. naive_solver.
Qed.

Lemma series_max_ge (s : list (string * nat)) (it : string * nat) :
  it ∈ s -> (it.2 <= series_max s)%nat.
Proof.
  unfold series_max. induction 1 as [it s|it it' s _ IH]; simpl; lia.
Qed.

Lemma series_max_attained (s : list (string * nat)) :
  s <> [] -> exists it, it ∈ s /\ it.2 = series_max s.
Proof.
  unfold series_max. induction s as [|it s IH]; [done|]. intros _. simpl.
  destruct s as [|it' s].
  - exists it. split; [left|]. simpl. lia.
  - destruct IH as (m & Hm & Heq); [done|].
    destruct (Nat.max_spec it.2 (fold_right Nat.max 0%nat (map snd (it' :: s))))
      as [[_ ->]|[_ ->]].
    + exists m. split; [by right | done].
    + exists it. split; [left | done].
Qed.

(** Adding up, over distinct keys, a quantity that is zero off one key. *)
Lemma sum_at_key (f : string -> nat) (c : string) (keys : list string) :
  NoDup keys ->
  sum_list_with (fun k => if decide (k = c) then f k else 0%nat) keys
  = if decide (c ∈ keys) then f c else 0%nat.
Proof.
  induction 1 as [|k keys Hk _ IH].
  - simpl. destruct (decide (c ∈ [])) as [Hin|_]; [|done].
    by apply not_elem_of_nil in Hin.
  - change (sum_list_with ?g (k :: keys)) with (g k + sum_list_with g keys)%nat.
    rewrite IH. destruct (decide (k = c)) as [->|Hne].
    + destruct (decide (c ∈ c :: keys)) as [_|Hn]; [|by destruct Hn; left].
      destruct (decide (c ∈ keys)); [done | lia].
    + simpl. destruct (decide (c ∈ keys)) as [Hin|Hin];
        destruct (decide (c ∈ k :: keys)) as [Hin'|Hin']; try done.
      * destruct Hin'. by right.
      * apply elem_of_cons in Hin' as [->|?]; done.
Qed.

(** [choices] returns as many picks as asked, all from the population,
    unless it is asked to pick from nothing. *)
Lemma choices_ok {A} (population : list A) (k : nat) (g : Random.state) :
  population <> [] \/ k = 0%nat ->
  exists picked g',
    Random.choices g population k = Ok (picked, g')
    /\ length picked = k /\ Forall (fun x => x ∈ population) picked.
Proof.
  revert g. induction k as [|k IH]; intros g Hpop.
  - exists [], g. by repeat split.
  - destruct Hpop as [Hpop|?]; [|done].
    simpl. set (i := Nat.modulo _ _).
    destruct (lookup_lt_is_Some_2 population i) as [x Hx].
    { apply Nat.mod_upper_bound. by destruct population. }
    rewrite Hx.
    destruct (IH {| Random.draws := Random.draws g;
                    Random.cursor := S (Random.cursor g) |}) as (l & g' & -> & Hl & Hall);
      [by left|].
    exists (x :: l), g'. simpl. split; [done|]. split; [by rewrite Hl|].
    constructor; [|done]. apply list_elem_of_lookup. by exists i.
Qed.

(** The labels that [index_of_class] lists are labels of rows of the class. *)
Lemma index_of_class_rows (df : DataFrame) (c : string) :
  Forall (fun i => exists r, df !! i = Some r /\ class_label r = c)
         (index_of_class df c).
Proof.
  unfold index_of_class. apply Forall_forall. intros i Hi.
  change (map fst ?l) with (fst <$> l) in Hi.
  apply list_elem_of_fmap in Hi as ([i' r] & -> & Hin).
  apply list_elem_of_filter in Hin as [Hc Hin]. simpl in *.
  apply list_elem_of_lookup in Hin as [k Hk].
  apply lookup_zip_with_Some in Hk as (a & b & Hab & Hseq & Hdf).
  injection Hab as -> ->.
  apply lookup_seq in Hseq as [-> _]. by exists b.
Qed.

Lemma index_of_class_nonempty (df : DataFrame) (c : string) :
  c ∈ class_column df -> index_of_class df c <> [].
Proof.
  intros (r & Hr & Hc)%elem_of_class_column.
  apply list_elem_of_lookup in Hr as [k Hk].
  assert (Hin : k ∈ index_of_class df c).
  { unfold index_of_class. change (map fst ?l) with (fst <$> l).
    apply list_elem_of_fmap. exists (k, r). split; [done|].
    apply list_elem_of_filter. split; [done|].
    apply list_elem_of_lookup. exists k.
    apply lookup_zip_with_Some. exists k, r. split; [done|]. split; [|done].
    apply lookup_seq. split; [done|]. by apply lookup_lt_Some in Hk. }
  intros Heq. rewrite Heq in Hin. by apply not_elem_of_nil in Hin.
Qed.

(** The inner loop appends one row of the table per picked label. *)
Lemma append_rows_ok (df resampled : DataFrame) (c : string) (idxs : list nat) :
  Forall (fun i => exists r, df !! i = Some r /\ class_label r = c) idxs ->
  exists extra,
    append_rows df resampled idxs = Ok (resampled ++ extra)
    /\ length extra = length idxs
    /\ Forall (fun r => r ∈ df /\ class_label r = c) extra.
Proof.
  intros H. revert resampled.
  induction H as [|i idxs (r & Hr & Hc) _ IH]; intros resampled.
  - exists []. rewrite app_nil_r. by repeat split.
  - simpl. unfold loc. rewrite Hr. simpl.
    destruct (IH (concat_row resampled r)) as (extra & -> & Hlen & Hall).
    exists (r :: extra). unfold concat_row. rewrite <- app_assoc. simpl.
    split; [done|]. split; [by rewrite Hlen|].
    constructor; [|done]. split; [|done]. apply list_elem_of_lookup. by exists i.
Qed.

(** One turn of the outer loop, for a class that occurs in the table. *)
Lemma resample_class_ok (df resampled : DataFrame) (class_count : list (string * nat))
    (g : Random.state) (item : string * nat) :
  item.1 ∈ class_column df ->
  exists extra g',
    resample_class df class_count (resampled, g) item = Ok (resampled ++ extra, g')
    /\ length extra = (series_max class_count - item.2)%nat
    /\ Forall (fun r => r ∈ df /\ class_label r = item.1) extra.
Proof.
  intros Hin. unfold resample_class. simpl.
  destruct (choices_ok (index_of_class df item.1)
              (series_max class_count - item.2) g) as (picked & g' & -> & Hlen & Hall).
  { left. by apply index_of_class_nonempty. }
  simpl.
  destruct (append_rows_ok df resampled item.1 picked) as (extra & -> & Hlen' & Hrows).
  { pose proof (index_of_class_rows df item.1) as Hrows.
    rewrite Forall_forall in Hrows. apply Forall_forall. intros i Hi.
    rewrite Forall_forall in Hall. by apply Hrows, Hall. }
  exists extra, g'. simpl. split; [done|]. split; [lia | done].
Qed.

Lemma bind_Ok_l {A B} (a : A) (k : A -> result B) : Ok a ≫= k = k a.
Proof. reflexivity. Qed.

Lemma for_each_cons {A S} (body : S -> A -> result S) (x : A) (rest : list A) (s : S) :
  for_each body (x :: rest) s = body s x ≫= for_each body rest.
Proof. reflexivity. Qed.

(** The outer loop over any list of entries whose classes occur in the
    table. *)
Lemma for_each_class_ok (df : DataFrame) (class_count items : list (string * nat))
    (resampled : DataFrame) (g : Random.state) :
  Forall (fun it => it.1 ∈ class_column df) items ->
  exists extra g',
    for_each (resample_class df class_count) items (resampled, g)
    = Ok (resampled ++ extra, g')
    /\ Forall (fun r => r ∈ df) extra
    /\ length extra
       = sum_list_with (fun it => (series_max class_count - it.2)%nat) items
    /\ forall c,
         count_of c (class_column extra)
         = sum_list_with (fun it => if decide (it.1 = c)
                                    then (series_max class_count - it.2)%nat
                                    else 0%nat) items.
Proof.
  intros H. revert resampled g.
  induction H as [|it items Hit _ IH]; intros resampled g.
  - exists [], g. rewrite app_nil_r. by repeat split.
  - rewrite for_each_cons.
    destruct (resample_class_ok df resampled class_count g it Hit)
      as (e1 & g1 & -> & Hlen1 & Hrows1). rewrite bind_Ok_l.
    destruct (IH (resampled ++ e1) g1) as (e2 & g2 & Hrest & Hin2 & Hlen2 & Hcount2).
    exists (e1 ++ e2), g2. split; [by rewrite app_assoc|]. split; [|split].
    + apply Forall_app. split; [|done]. eapply Forall_impl; [exact Hrows1|].
      by intros r [? _].
    + rewrite length_app, Hlen1, Hlen2. reflexivity.
    + intros c. rewrite class_column_app, count_of_app, Hcount2.
      rewrite (count_of_one_class c it.1 e1).
      * rewrite Hlen1. reflexivity.
      * eapply Forall_impl; [exact Hrows1|]. by intros r [_ ?].
Qed.

Lemma sum_list_with_fmap {A B} (f : B -> nat) (h : A -> B) (l : list A) :
  sum_list_with f (h <$> l) = sum_list_with (fun x => f (h x)) l.
Proof. induction l as [|x l IH]; [done|]. simpl. f_equal. exact IH. Qed.

(** What [oversample] returns: the table that was read, followed by copies
    of some of its rows, as many per class as the class lacks. *)
Lemma oversample_ok (g : Random.state) (df : DataFrame) :
  let col := class_column df in
  let mx := series_max (value_counts col) in
  exists extra g',
    oversample g df = Ok (df ++ extra, g')
    /\ Forall (fun r => r ∈ df) extra
    /\ length extra = sum_list_with (fun c => (mx - count_of c col)%nat) (unique col)
    /\ forall c, count_of c (class_column extra)
                 = if decide (c ∈ col) then (mx - count_of c col)%nat else 0%nat.
Proof.
  intros col mx. unfold oversample. fold col.
  destruct (for_each_class_ok df (value_counts col) (value_counts col) df g)
    as (extra & g' & -> & Hin & Hlen & Hcount).
  { apply Forall_forall. intros [c n] Hcn.
    apply elem_of_value_counts in Hcn as [Hc _]. exact Hc. }
  exists extra, g'. fold mx in Hlen, Hcount. split; [done|]. split; [done|]. split.
  - rewrite Hlen, (value_counts_Permutation col). by rewrite sum_list_with_fmap.
  - intros c. rewrite Hcount, (value_counts_Permutation col), sum_list_with_fmap.
    simpl. rewrite (sum_at_key (fun k => (mx - count_of k col)%nat) c (unique col))
      by apply NoDup_unique.
    destruct (decide (c ∈ unique col)) as [H|H]; rewrite elem_of_unique in H.
    + by rewrite decide_True.
    + by rewrite decide_False.
Qed.

(** C4. The oversampling returns on every table and random source. The
    largest count among the classes of the table that was read is reached
    by every class in the table that comes out; that table has the rows of
    the original plus, for every class, as many rows as the class was short
    of the largest count; and it is the original followed by copies of
    original rows, so that no row has been removed. *)
Theorem oversample_balances_classes (g : Random.state) (train_data : DataFrame) :
  let col := class_column train_data in
  let max_count := series_max (value_counts col) in
  exists out g',
    oversample g train_data = Ok (out, g')
    /\ (forall c, c ∈ col -> (count_of c col <= max_count)%nat)
    /\ (col <> [] -> exists c, c ∈ col /\ count_of c col = max_count)
    /\ (forall c, c ∈ col -> count_of c (class_column out) = max_count)
    /\ length out
       = (length train_data
          + sum_list_with (fun c => (max_count - count_of c col)%nat) (unique col))%nat
    /\ NoDup (unique col) /\ (forall c, c ∈ unique col <-> c ∈ col)
    /\ exists extra, out = train_data ++ extra
                     /\ Forall (fun r => r ∈ train_data) extra.
Proof.
  intros col max_count.
  destruct (oversample_ok g train_data) as (extra & g' & Hrun & Hin & Hlen & Hcount).
  fold col in Hlen, Hcount. fold max_count in Hlen, Hcount.
  assert (Hle : forall c, c ∈ col -> (count_of c col <= max_count)%nat).
  { intros c Hc.
    apply (series_max_ge (value_counts col) (c, count_of c col)).
    by apply elem_of_value_counts. }
  exists (train_data ++ extra), g'. split; [exact Hrun|]. split; [exact Hle|].
  split; [|split; [|split; [|split; [|split]]]].
  - intros Hne. destruct (series_max_attained (value_counts col)) as ([c n] & Hcn & Hmax).
    { destruct col as [|c col'] eqn:E; [done|]. intros Hnil.
      assert (Hc : (c, count_of c (c :: col')) ∈ value_counts (c :: col')).
      { apply elem_of_value_counts. split; [left | done]. }
      rewrite Hnil in Hc. by apply not_elem_of_nil in Hc. }
    apply elem_of_value_counts in Hcn as [Hc ->]. by exists c.
  - intros c Hc. rewrite class_column_app, count_of_app, Hcount.
    fold col. rewrite decide_True by done. specialize (Hle c Hc). lia.
  - by rewrite length_app, Hlen.
  - apply NoDup_unique.
  - intros c. apply elem_of_unique.
  - by exists extra.
Qed.

End OversampleFacts.

(** ** The detection trainer and its files *)
Section DetectionFacts.
Import Pandas Files Trainer.

Lemma oversample_balances_classes_witness :
  exists out g',
    oversample Examples.rng Examples.train_rows = Ok (out, g')
    /\ class_column out
       = ["ground-fixed"; "ground-fixed"; "carport-fixed"; "carport-fixed"].
Proof.
  destruct (oversample_balances_classes Examples.rng Examples.train_rows)
    as (out & g' & Hrun & _).
  exists out, g'. split; [exact Hrun|].
  vm_compute in Hrun. injection Hrun as <- _. reflexivity.
Defined.

(** C5 (as stated, refuted). When one directory is given as the training
    and as the validation directory, the table at the validation path is
    the one that the balancing step rewrites with the resampled rows. *)
Lemma balancing_rewrites_shared_validation_table :
  exists s2 g',
    balance_classes "train" Examples.rng
      (convert_annotations "train" "train" Examples.disk) = Ok (s2, g')
    /\ csv_at (labels_path "train")
         (convert_annotations "train" "train" Examples.disk)
       = Some Examples.train_rows
    /\ csv_at (labels_path "train") s2
       = Some (Examples.train_rows ++ [Examples.box "c.png" "carport-fixed"])
    /\ csv_at (labels_path "train") s2
       <> csv_at (labels_path "train")
            (convert_annotations "train" "train" Examples.disk).
Proof.
  do 2 eexists. split; [vm_compute; reflexivity|].
  split; [vm_compute; reflexivity|]. split; [vm_compute; reflexivity|].
  vm_compute. discriminate.
Qed.

(** The same happens when the two arguments are two spellings of one
    directory: the strings differ, the file is one. *)
Lemma balancing_rewrites_validation_table_under_alias :
  "train" <> "train/"
  /\ exists s2 g',
       balance_classes "train" Examples.rng
         (convert_annotations "train" "train/" Examples.disk) = Ok (s2, g')
       /\ csv_at (labels_path "train/")
            (convert_annotations "train" "train/" Examples.disk)
          = Some Examples.train_rows
       /\ csv_at (labels_path "train/") s2
          = Some (Examples.train_rows ++ [Examples.box "c.png" "carport-fixed"]).
Proof.
  split; [discriminate|]. do 2 eexists. split; [vm_compute; reflexivity|].
  split; vm_compute; reflexivity.
Qed.

(** What the format conversion leaves in the two annotation files: the
    validation rows in the validation file, and in the training file the
    training rows, unless it is the validation file as well. *)
Lemma convert_annotations_tables (train_path val_path : string) (s : fs) :
  let s1 := convert_annotations train_path val_path s in
  let rows (dir : string) :=
    default [] (xml_folders s !! resolve s (dir +:+ "/annotations/")) in
  csv_at (labels_path val_path) s1 = Some (rows val_path)
  /\ csv_at (labels_path train_path) s1
     = Some (if decide (resolve s (labels_path train_path)
                        = resolve s (labels_path val_path))
             then rows val_path else rows train_path).
Proof.
  intros s1 rows. unfold csv_at, s1, convert_annotations, xml_to_csv. simpl.
  split; [by rewrite lookup_insert_eq|].
  destruct (decide (resolve s (labels_path train_path)
                    = resolve s (labels_path val_path))) as [->|Hne].
  - by rewrite lookup_insert_eq.
  - rewrite lookup_insert_ne by done. by rewrite lookup_insert_eq.
Qed.

Lemma read_csv_Some (path : string) (s : fs) (df : DataFrame) :
  csv_at path s = Some df -> read_csv path s = Ok df.
Proof. intros H. unfold read_csv. by rewrite H. Qed.

(** C5 (as amended). The class balancing of
    [trainMountingConfigClassifier] returns, and the one file that it
    reads and rewrites is the file that the training path names: that file
    holds the resampled table afterwards and no other file has changed.
    When the validation path names another file, the validation table is
    still what the format conversion wrote there. *)
Theorem balancing_rewrites_training_table_only
    self (train_path val_path : string) (g : Random.state) (s : fs) :
  let s1 := convert_annotations train_path val_path s in
  exists train_data out g' s2 r,
    read_csv (labels_path train_path) s1 = Ok train_data
    /\ oversample g train_data = Ok (out, g')
    /\ balance_classes train_path g s1 = Ok (s2, g')
    /\ trainMountingConfigClassifier self train_path val_path g s = Ok r
    /\ det_files r = s2
    /\ det_val_dataset r = (labels_path val_path, val_path +:+ "/images")
    /\ csv_at (labels_path train_path) s2 = Some out
    /\ (forall file, file <> resolve s (labels_path train_path) ->
                     csv_files s2 !! file = csv_files s1 !! file)
    /\ xml_folders s2 = xml_folders s1
    /\ resolve s2 = resolve s
    /\ csv_at (labels_path val_path) s1
       = Some (default [] (xml_folders s
                             !! resolve s (val_path +:+ "/annotations/")))
    /\ (resolve s (labels_path train_path) <> resolve s (labels_path val_path) ->
        csv_at (labels_path val_path) s2 = csv_at (labels_path val_path) s1).
Proof.
  intros s1.
  destruct (convert_annotations_tables train_path val_path s) as [Hval Htrain].
  fold s1 in Hval, Htrain.
  destruct (csv_at (labels_path train_path) s1) as [train_data|] eqn:Hat;
    [|discriminate]. clear Htrain.
  pose proof (read_csv_Some _ _ _ Hat) as Hread.
  destruct (oversample_ok g train_data) as (extra & g' & Hover & _).
  assert (Hbal : balance_classes train_path g s1
                 = Ok (to_csv (train_data ++ extra) (labels_path train_path) s1, g')).
  { unfold balance_classes. rewrite Hread, bind_Ok_l, Hover. reflexivity. }
  exists train_data, (train_data ++ extra), g',
    (to_csv (train_data ++ extra) (labels_path train_path) s1).
  eexists. split; [exact Hread|]. split; [exact Hover|]. split; [exact Hbal|].
  split. { unfold trainMountingConfigClassifier. fold s1. rewrite Hbal. reflexivity. }
  split; [done|]. split; [done|].
  split; [apply lookup_insert_eq|].
  split. { intros file Hfile. simpl. by rewrite lookup_insert_ne. }
  split; [done|]. split; [done|]. split; [exact Hval|].
  intros Hne. unfold csv_at. simpl. by rewrite lookup_insert_ne.
Qed.

Lemma balancing_rewrites_training_table_only_witness :
  exists s2 g',
    balance_classes "train" Examples.rng
      (convert_annotations "train" "val" Examples.disk) = Ok (s2, g')
    /\ csv_at (labels_path "val") s2 = Some Examples.val_rows.
Proof.
  destruct (balancing_rewrites_training_table_only
              Examples.trainer "train" "val" Examples.rng Examples.disk)
    as (td & out & g' & s2 & r & _ & _ & Hbal & _ & _ & _ & _ & _ & _ & _
        & Hval & Hsame).
  exists s2, g'. split; [exact Hbal|]. rewrite Hsame; [exact Hval|].
  vm_compute. discriminate.
Defined.

(** C3 (the code at the failing input). A trainer built with the learning
    rate 1e-3 hands 1e-3 to the optimizer of the segmentation model and to
    the fit of the detection model, and 1e-4 to the optimizer of the
    classifier. *)
Theorem trainPanelClassifier_ignores_learning_rate :
  learning_rate Examples.trainer = 1 # 1000
  /\ (exists r,
        trainSegmentation Examples.trainer Examples.images Examples.masks
          Examples.images Examples.masks "seg.h5" = Ok r
        /\ lr (optimizer (seg_compile r)) = learning_rate Examples.trainer)
  /\ (exists r,
        trainMountingConfigClassifier Examples.trainer "train" "val"
          Examples.rng Examples.disk = Ok r
        /\ det_learning_rate r = learning_rate Examples.trainer)
  /\ (exists r,
        trainPanelClassifier Examples.trainer Examples.dirs "train" "val" "cls.h5"
        = Ok r
        /\ lr (optimizer (cls_compile r)) = 1 # 10000
        /\ ~ (lr (optimizer (cls_compile r)) == learning_rate Examples.trainer)%Q).
Proof.
  split; [reflexivity|]. split; [|split].
  - eexists. split; [vm_compute; reflexivity | reflexivity].
  - eexists. split; [vm_compute; reflexivity | reflexivity].
  - eexists. split; [vm_compute; reflexivity|]. split; [reflexivity|].
    simpl. intros H. vm_compute in H. discriminate H.
Qed.

End DetectionFacts.

(** * Further properties of the code *)

(** ** The statistics reporter, on any history *)
Section StatsMore.
Import Np Plt Stats.

(** X1. With every key that the mode asks for, training and validation, the
    reporter prints nothing and saves the training figures, the validation
    figures and the two combined figures, in this order. *)
Theorem trainingStatistics_with_validation
    (history : gmap string (list npfloat)) (mode : Z) :
  is_Some (history !! "accuracy") -> is_Some (history !! "loss") ->
  is_Some (history !! "val_accuracy") -> is_Some (history !! "val_loss") ->
  (mode = 1 -> is_Some (history !! "diceCoeff")
               /\ is_Some (history !! "val_diceCoeff")) ->
  exists log,
    Plt.run (trainingStatistics history mode) = (Ok tt, log)
    /\ prints log = []
    /\ savefigs log
       = (if Z.eqb mode 1 then ["Train_dice_coef"] else [])
         ++ ["Train_loss"; "Train_accuracy"]
         ++ (if Z.eqb mode 1 then ["VAL_dice_coef"] else [])
         ++ ["VAL_loss"; "VAL_accuracy"; "Training statistics";
             "Validation statistics"].
Proof.
  intros [acc Hacc] [los Hlos] [vacc Hvacc] [vlos Hvlos] Hdice.
  unfold Plt.run, trainingStatistics, getitem.
  rewrite Hacc, Hlos, Hvacc, Hvlos.
  destruct (Z.eqb mode 1) eqn:E.
  - apply Z.eqb_eq in E. destruct (Hdice E) as [[d Hd] [vd Hvd]].
    rewrite Hd, Hvd. eexists. split; [reflexivity|]. split; reflexivity.
  - eexists. split; [reflexivity|]. split; reflexivity.
Qed.

Lemma trainingStatistics_with_validation_witness :
  exists log,
    Plt.run (trainingStatistics Examples.classifier_history 0) = (Ok tt, log)
    /\ savefigs log
       = ["Train_loss"; "Train_accuracy"; "VAL_loss"; "VAL_accuracy";
          "Training statistics"; "Validation statistics"].
Proof.
  destruct (trainingStatistics_with_validation Examples.classifier_history 0)
    as (log & Hrun & _ & Hfigs);
    [eexists; reflexivity | eexists; reflexivity | eexists; reflexivity
    | eexists; reflexivity | discriminate |].
  exists log. split; [exact Hrun | exact Hfigs].
Defined.




(** X4. With a mode other than 1 the overlap-coefficient keys are never read:
    two histories that agree on accuracy, loss, val_accuracy and val_loss
    give the same effects and the same result, and no overlap-coefficient
    figure is saved. *)
Theorem trainingStatistics_other_modes_ignore_dice
    (h1 h2 : gmap string (list npfloat)) (mode : Z) :
  mode <> 1 ->
  (forall key, In key ["accuracy"; "loss"; "val_accuracy"; "val_loss"] ->
               h1 !! key = h2 !! key) ->
  Plt.run (trainingStatistics h1 mode) = Plt.run (trainingStatistics h2 mode)
  /\ ~ In "Train_dice_coef" (savefigs (Plt.run (trainingStatistics h1 mode)).2)
  /\ ~ In "VAL_dice_coef" (savefigs (Plt.run (trainingStatistics h1 mode)).2).
Proof.
  intros Hmode Hagree. apply Z.eqb_neq in Hmode.
  assert (Ha := Hagree "accuracy"). assert (Hl := Hagree "loss").
  assert (Hva := Hagree "val_accuracy"). assert (Hvl := Hagree "val_loss").
  unfold Plt.run, trainingStatistics, getitem.
  rewrite Hmode, Ha, Hl, Hva, Hvl by (simpl; tauto). split; [reflexivity|].
  destruct (h2 !! "accuracy"); [|simpl; tauto].
  destruct (h2 !! "loss"); [|simpl; tauto].
  destruct (h2 !! "val_accuracy"); [|simpl; intuition discriminate].
  destruct (h2 !! "val_loss"); simpl; intuition discriminate.
Qed.

Lemma trainingStatistics_other_modes_ignore_dice_witness :
  Plt.run (trainingStatistics Examples.training_history 0)
  = Plt.run (trainingStatistics MoreExamples.plain_history 0).
Proof.
  apply (trainingStatistics_other_modes_ignore_dice
           Examples.training_history MoreExamples.plain_history 0);
    [discriminate|].
  intros key [<-|[<-|[<-|[<-|[]]]]]; reflexivity.
Defined.

End StatsMore.

(** ** Mask normalization and the arguments of [fit] *)
Section TrainerMore.
Import Np K Callbacks Files Trainer.

Lemma Qeq_bool_false (a b : Q) : ~ (a == b)%Q -> Qeq_bool a b = false.
Proof.
  intros H. destruct (Qeq_bool a b) eqn:E; [|done].
  by apply Qeq_bool_iff in E.
Qed.

(** X5. A mask without negative entries and with a positive one comes out of
    the normalization with every entry a finite number between 0 and 1, and
    with 1 where the largest entry was. *)
Theorem normalize_mask_unit_range (mask : tensor) :
  Forall (Forall (fun x => (0 <= x)%Q)) mask ->
  Exists (Exists (fun x => (0 < x)%Q)) mask ->
  exists out,
    normalize_mask mask = Ok out
    /\ Forall (Forall (fun y => exists q, y = Fin q /\ (0 <= q <= 1)%Q)) out
    /\ In (Fin 1) (concat out).
Proof.
  intros Hpos Hex.
  assert (Hne : flatten mask <> []).
  { unfold flatten. apply Exists_exists in Hex as (row & Hrow & Hx).
    apply Exists_exists in Hx as (x & Hx & _).
    intros Hnil. assert (Hin : x ∈ concat mask).
    { apply list_elem_of_In, in_concat. exists row.
      split; by apply list_elem_of_In. }
    rewrite Hnil in Hin. by apply not_elem_of_nil in Hin. }
  destruct (normalize_mask_ok mask Hne) as (m & [Hin Hmax] & Hrun).
  assert (Hm : (0 < m)%Q).
  { apply Exists_exists in Hex as (row & Hrow & Hx).
    apply Exists_exists in Hx as (x & Hx & Hx0).
    eapply Qlt_le_trans; [exact Hx0|]. apply Hmax, in_concat.
    exists row. split; by apply list_elem_of_In. }
  assert (Hmz : Qeq_bool m 0 = false).
  { apply Qeq_bool_false. intros H. rewrite H in Hm. by apply Qlt_irrefl in Hm. }
  exists (divide_scalar mask m). split; [exact Hrun|]. split.
  - unfold divide_scalar. apply Forall_forall. intros out_row Hout.
    apply list_elem_of_In, in_map_iff in Hout as (row & <- & Hrow).
    apply Forall_forall. intros y Hy.
    apply list_elem_of_In, in_map_iff in Hy as (x & <- & Hx).
    unfold true_divide. rewrite Hmz. eexists. split; [reflexivity|].
    rewrite Qred_correct.
    assert (Hx0 : (0 <= x)%Q).
    { rewrite Forall_forall in Hpos. specialize (Hpos row).
      rewrite Forall_forall in Hpos. apply Hpos; by apply list_elem_of_In. }
    assert (Hxm : (x <= m)%Q).
    { apply Hmax, in_concat. exists row. by split. }
    split.
    + apply Qle_shift_div_l; [done|]. by rewrite Qmult_0_l.
    + apply Qle_shift_div_r; [done|]. by rewrite Qmult_1_l.
  - unfold flatten in Hin. apply in_concat in Hin as (row & Hrow & Hm_in).
    apply in_concat. exists (map (fun x => true_divide x m) row). split.
    + unfold divide_scalar. apply in_map_iff. by exists row.
    + apply in_map_iff. exists m. split; [|done].
      unfold true_divide. rewrite Hmz.
      change (Fin 1) with (Fin (Qred 1)). apply Fin_Qred_eq.
      field. intros H. rewrite H in Hm. by apply Qlt_irrefl in Hm.
Qed.

Lemma normalize_mask_unit_range_witness :
  normalize_mask Examples.masks = Ok [[Fin 0; Fin 1]; [Fin (1 # 5); Fin 0]].
Proof.
  destruct (normalize_mask_unit_range Examples.masks) as (out & Hrun & _).
  - repeat constructor; discriminate.
  - left. right. left. reflexivity.
  - vm_compute in Hrun. injection Hrun as <-. reflexivity.
Defined.

(** X6. A two-level mask, with entries 0 or one positive level (255, say)
    and the level present, is normalized to the mask of zeros and ones: 0
    where the entry was 0 and 1 where it was the level, whatever the level
    is. *)
Theorem normalize_mask_two_levels (level : Q) (mask : tensor) :
  (0 < level)%Q ->
  Forall (Forall (fun x => (x == 0 \/ x == level)%Q)) mask ->
  Exists (Exists (fun x => (x == level)%Q)) mask ->
  normalize_mask mask
  = Ok (map (map (fun x => if Qeq_bool x 0 then Fin 0 else Fin 1)) mask).
Proof.
  intros Hlevel Hall Hex.
  apply Exists_exists in Hex as (row0 & Hrow0 & Hx0).
  apply Exists_exists in Hx0 as (x0 & Hx0 & Hx0l).
  assert (Hin0 : In x0 (flatten mask)).
  { apply in_concat. exists row0. split; by apply list_elem_of_In. }
  assert (Hne : flatten mask <> []) by (by destruct (flatten mask)).
  assert (Hentry : forall row x, In row mask -> In x row ->
                                 (x == 0 \/ x == level)%Q).
  { intros row x Hrow Hx. rewrite Forall_forall in Hall.
    specialize (Hall row (proj2 (list_elem_of_In _ _) Hrow)).
    rewrite Forall_forall in Hall. by apply Hall, list_elem_of_In. }
  destruct (normalize_mask_ok mask Hne) as (m & [Hin Hmax] & ->).
  assert (Hm : (m == level)%Q).
  { apply in_concat in Hin as (row & Hrow & Hmrow).
    destruct (Hentry row m Hrow Hmrow) as [Hz|Hl]; [|done].
    specialize (Hmax x0 Hin0). rewrite Hx0l, Hz in Hmax. lra. }
  assert (Hmz : Qeq_bool m 0 = false) by (apply Qeq_bool_false; lra).
  f_equal. unfold divide_scalar.
  apply map_ext_in. intros row Hrow. apply map_ext_in. intros x Hx.
  unfold true_divide. rewrite Hmz.
  destruct (Hentry row x Hrow Hx) as [Hz|Hl].
  - rewrite (proj2 (Qeq_bool_iff x 0) Hz).
    change (Fin 0) with (Fin (Qred 0)). apply Fin_Qred_eq.
    rewrite Hz. field. lra.
  - rewrite Qeq_bool_false by lra.
    change (Fin 1) with (Fin (Qred 1)). apply Fin_Qred_eq.
    rewrite Hl, Hm. field. lra.
Qed.

Lemma normalize_mask_two_levels_witness :
  normalize_mask [[0; 255]; [255; 0]]%Q = Ok [[Fin 0; Fin 1]; [Fin 1; Fin 0]].
Proof.
  apply (normalize_mask_two_levels 255 [[0; 255]; [255; 0]]%Q).
  - reflexivity.
  - repeat constructor; (left; reflexivity) || (right; reflexivity).
  - left. right. left. reflexivity.
Defined.

Lemma normalize_mask_empty (mask : tensor) :
  flatten mask = [] ->
  normalize_mask mask
  = Raise (ValueError
      "zero-size array to reduction operation maximum which has no identity").
Proof. intros H. unfold normalize_mask, Np.max. by rewrite H. Qed.

(** X7. A mask array without any entry stops [trainSegmentation] at the
    normalization, with the [ValueError] of the maximum of nothing,
    whatever the other arguments are. *)
Theorem trainSegmentation_empty_mask
    self (train_data train_mask val_data val_mask : tensor) path :
  flatten train_mask = []
  \/ (flatten train_mask <> [] /\ flatten val_mask = []) ->
  trainSegmentation self train_data train_mask val_data val_mask path
  = Raise (ValueError
      "zero-size array to reduction operation maximum which has no identity").
Proof.
  intros [Ht|[Ht Hv]]; unfold trainSegmentation.
  - by rewrite (normalize_mask_empty _ Ht).
  - destruct (normalize_mask_ok train_mask Ht) as (m & _ & ->).
    by rewrite bind_Ok_l, (normalize_mask_empty _ Hv).
Qed.

Lemma trainSegmentation_empty_mask_witness :
  trainSegmentation Examples.trainer Examples.images [] Examples.images
    Examples.masks "model.h5"
  = Raise (ValueError
      "zero-size array to reduction operation maximum which has no identity").
Proof.
  apply (trainSegmentation_empty_mask Examples.trainer Examples.images []
           Examples.images Examples.masks "model.h5").
  left. reflexivity.
Defined.

(** X8. A trainer built with a batch size of 0 gets as far as the step counts
    and stops there with a [ZeroDivisionError], in the segmentation and in
    the classification trainer alike. *)
Theorem zero_batch_size_is_a_division_error
    self (train_data train_mask val_data val_mask : tensor) path
    (dirs : image_dirs) train_path val_path (train_labels val_labels : list nat) :
  batch_size self = 0 ->
  flatten train_mask <> [] -> flatten val_mask <> [] ->
  length train_data = length train_mask -> length val_data = length val_mask ->
  dirs !! train_path = Some train_labels -> dirs !! val_path = Some val_labels ->
  trainSegmentation self train_data train_mask val_data val_mask path
  = Raise (ZeroDivisionError "integer division or modulo by zero")
  /\ trainPanelClassifier self dirs train_path val_path path
     = Raise (ZeroDivisionError "integer division or modulo by zero").
Proof.
  intros Hb Htm Hvm Hlt Hlv Hdt Hdv. split.
  - unfold trainSegmentation.
    destruct (normalize_mask_ok train_mask Htm) as (m_t & _ & ->).
    destruct (normalize_mask_ok val_mask Hvm) as (m_v & _ & ->).
    rewrite !bind_Ok_l.
    rewrite !flow_ok by (by rewrite length_divide_scalar).
    rewrite !bind_Ok_l. by rewrite Hb.
  - unfold trainPanelClassifier, flow_from_directory.
    rewrite Hdt, Hdv, !bind_Ok_l. by rewrite Hb.
Qed.

Lemma zero_batch_size_is_a_division_error_witness :
  trainPanelClassifier (__init__ 0 1 (1 # 1000)) Examples.dirs "train" "val" "cls.h5"
  = Raise (ZeroDivisionError "integer division or modulo by zero").
Proof.
  apply (zero_batch_size_is_a_division_error (__init__ 0 1 (1 # 1000))
           Examples.images Examples.masks Examples.images Examples.masks "cls.h5"
           Examples.dirs "train" "val" [0; 1; 0; 1]%nat [0; 1]%nat);
    first [reflexivity | discriminate].
Defined.

(** X9. With fewer samples than the batch size the trainers ask [fit] for zero
    steps per epoch (and zero validation steps when the validation set is
    that small): the call is made, and no batch is drawn in an epoch. *)
Theorem fewer_samples_than_batch_give_zero_steps
    self (train_data train_mask val_data val_mask : tensor) path
    (dirs : image_dirs) train_path val_path (train_labels val_labels : list nat) :
  flatten train_mask <> [] -> flatten val_mask <> [] ->
  length train_data = length train_mask -> length val_data = length val_mask ->
  dirs !! train_path = Some train_labels -> dirs !! val_path = Some val_labels ->
  Z.of_nat (length train_data) < batch_size self ->
  Z.of_nat (length train_labels) < batch_size self ->
  (exists r,
     trainSegmentation self train_data train_mask val_data val_mask path = Ok r
     /\ steps_per_epoch (seg_fit r) = 0
     /\ (Z.of_nat (length val_data) < batch_size self ->
         validation_steps (seg_fit r) = 0))
  /\ (exists c,
     trainPanelClassifier self dirs train_path val_path path = Ok c
     /\ steps_per_epoch (cls_fit c) = 0
     /\ (Z.of_nat (length val_labels) < batch_size self ->
         validation_steps (cls_fit c) = 0)).
Proof.
  intros Htm Hvm Hlt Hlv Hdt Hdv Hn Hn'.
  assert (Hb0 : batch_size self <> 0) by lia.
  split.
  - destruct (trainSegmentation_ok self _ _ _ _ path Htm Hvm Hlt Hlv Hb0)
      as (m_t & m_v & _ & _ & Hrun).
    eexists. split; [exact Hrun|]. simpl. split.
    + apply Z.div_small. lia.
    + intros Hv. apply Z.div_small. lia.
  - eexists. split; [by apply trainPanelClassifier_ok|]. simpl. split.
    + apply Z.div_small. lia.
    + intros Hv. apply Z.div_small. lia.
Qed.

Lemma fewer_samples_than_batch_give_zero_steps_witness :
  exists r,
    trainSegmentation (__init__ 32 5 (1 # 10000)) Examples.images Examples.masks
      Examples.images Examples.masks "model.h5" = Ok r
    /\ steps_per_epoch (seg_fit r) = 0.
Proof.
  destruct (fewer_samples_than_batch_give_zero_steps (__init__ 32 5 (1 # 10000))
              Examples.images Examples.masks Examples.images Examples.masks
              "model.h5" Examples.dirs "train" "val" [0; 1; 0; 1]%nat [0; 1]%nat)
    as ((r & Hr & Hs & _) & _);
    [vm_compute; discriminate | vm_compute; discriminate
    | reflexivity | reflexivity | reflexivity | reflexivity
    | reflexivity | reflexivity |].
  exists r. split; [exact Hr | exact Hs].
Defined.

End TrainerMore.

(** ** The overlap coefficient on masks *)
Section DiceMore.
Import Np K Trainer.

Lemma Qmult_comm_eq (x y : Q) : Qmult x y = Qmult y x.
Proof. unfold Qmult. f_equal; [apply Z.mul_comm | apply Pos.mul_comm]. Qed.

Lemma Qplus_comm_eq (x y : Q) : Qplus x y = Qplus y x.
Proof. unfold Qplus. f_equal; [apply Z.add_comm | apply Pos.mul_comm]. Qed.

Lemma zip_with_comm {A B} (f : A -> A -> B) (l k : list A) :
  (forall x y, f x y = f y x) -> zip_with f l k = zip_with f k l.
Proof.
  intros Hf. revert k. induction l as [|x l IH]; intros [|y k]; simpl; try done.
  by rewrite Hf, IH.
Qed.

(** X11. The overlap coefficient does not tell the truth from the prediction:
    swapping the two arguments gives the same value, or the same error. *)
Theorem diceCoeff_symmetric (y_true y_pred : tensor) (smooth : Q) :
  diceCoeff y_true y_pred smooth = diceCoeff y_pred y_true smooth.
Proof.
  unfold diceCoeff, multiply.
  destruct (decide (shape y_true = shape y_pred)) as [H|H].
  - rewrite (decide_True (P := shape y_pred = shape y_true)) by done.
    rewrite !bind_Ok_l.
    rewrite (zip_with_comm (zip_with Qmult) y_true y_pred).
    + by rewrite (zip_with_comm Qplus (sum_axis123 y_true) (sum_axis123 y_pred))
        by apply Qplus_comm_eq.
    + intros a b. apply zip_with_comm, Qmult_comm_eq.
  - by rewrite (decide_False (P := shape y_pred = shape y_true)) by done.
Qed.













End DiceMore.

(** ** Which epochs are checkpointed *)
Section CheckpointMore.
Import Np Callbacks Files Trainer.

Lemma run_from_no_improvement (cb : ModelCheckpoint) (b : Q)
    (epochs : list logs_t) (vals : list Q) :
  save_best_only cb = true -> mode cb = Max ->
  Forall2 (fun logs v => logs !! monitor cb = Some (Fin v)) epochs vals ->
  Forall (fun v => (v <= b)%Q) vals ->
  run_from cb (Fin b) epochs = repeat false (length epochs).
Proof.
  intros Hsave Hmode. induction 1 as [|logs v epochs vals Hlog _ IH];
    intros Hle; [done|].
  inversion Hle as [|? ? Hv Hrest]; subst.
  simpl run_from. unfold on_epoch_end. rewrite Hsave, Hlog, Hmode.
  change (monitor_op Max) with fgt.
  assert (E : fgt (Fin v) (Fin b) = false).
  { simpl. apply Qle_bool_iff in Hv. by rewrite Hv. }
  rewrite E. simpl. f_equal. by apply IH.
Qed.

(** X14. In a segmentation run whose validation loss never rises above the
    value of the first epoch (a loss that goes down, as training intends),
    the checkpoint is written after the first epoch and never again: the
    file keeps the weights of the first epoch. *)
Theorem segmentation_checkpoint_keeps_first_epoch
    (model_file_path : string) (epochs : list logs_t) (v0 : Q) (later : list Q) :
  Forall2 (fun logs v => logs !! "val_loss" = Some (Fin v)) epochs (v0 :: later) ->
  Forall (fun v => (v <= v0)%Q) later ->
  Callbacks.run (segmentation_checkpoint model_file_path) epochs
  = true :: repeat false (length later).
Proof.
  intros Hlogs Hle. inversion Hlogs as [|logs ? rest ? Hlog Hrest]; subst.
  unfold Callbacks.run. simpl run_from. unfold on_epoch_end. simpl.
  rewrite Hlog. simpl. f_equal.
  rewrite (run_from_no_improvement (segmentation_checkpoint model_file_path)
             v0 rest later eq_refl eq_refl Hrest Hle).
  by rewrite (Forall2_length _ _ _ Hrest).
Qed.

Lemma segmentation_checkpoint_keeps_first_epoch_witness :
  Callbacks.run (segmentation_checkpoint "model.h5") MoreExamples.falling_logs
  = [true; false; false; false].
Proof.
  apply (segmentation_checkpoint_keeps_first_epoch "model.h5"
           MoreExamples.falling_logs (9 # 10) [7 # 10; 7 # 10; 2 # 5]%Q).
  - repeat constructor.
  - repeat constructor; discriminate.
Defined.

Lemma trainPanelClassifier_checkpoint self (dirs : image_dirs) train_path val_path path r :
  trainPanelClassifier self dirs train_path val_path path = Ok r ->
  cls_checkpoint r = classifier_checkpoint path.
Proof.
  unfold trainPanelClassifier. intros H.
  do 4 (apply bind_Ok in H as (? & _ & H)).
  by injection H as <-.
Qed.

(** X15. The checkpoint of the classification trainer follows the validation
    accuracy: over a run whose epochs each report a finite val_accuracy,
    the file is written after an epoch exactly when the accuracy of that
    epoch is strictly greater than that of every earlier epoch. *)
Theorem classifier_checkpoint_written_iff_accuracy_improves
    (model_file_path : string) (epochs : list logs_t) (vals : list Q) :
  Forall2 (fun logs v => logs !! "val_accuracy" = Some (Fin v)) epochs vals ->
  let cb := classifier_checkpoint model_file_path in
  (forall self dirs train_path val_path r,
      trainPanelClassifier self dirs train_path val_path model_file_path = Ok r ->
      cls_checkpoint r = cb)
  /\ forall i v,
       vals !! i = Some v ->
       (Callbacks.run cb epochs !! i = Some true
        <-> forall j w, (j < i)%nat -> vals !! j = Some w -> (w < v)%Q).
Proof.
  intros Hlogs cb. split.
  { intros self dirs train_path val_path r. apply trainPanelClassifier_checkpoint. }
  intros i v Hi. unfold Callbacks.run.
  rewrite (run_from_written cb epochs vals eq_refl eq_refl Hlogs _ i v Hi).
  simpl. tauto.
Qed.

Lemma classifier_checkpoint_written_iff_accuracy_improves_witness :
  Callbacks.run (classifier_checkpoint "cls.h5") MoreExamples.accuracy_logs !! 1%nat
  = Some true.
Proof.
  destruct (classifier_checkpoint_written_iff_accuracy_improves
              "cls.h5" MoreExamples.accuracy_logs [1 # 2; 4 # 5; 3 # 5]%Q)
    as (_ & Hiff); [repeat constructor|].
  apply (Hiff 1%nat (4 # 5)%Q); [reflexivity|].
  intros [|j] w Hj Hw; [|lia]. injection Hw as <-. reflexivity.
Defined.

End CheckpointMore.

(** ** Oversampling: fixed points, random draws, files *)
Section OversampleMore.
Import Pandas Files Trainer.
#[local] Set Warnings "-clear-no-such-hyp".

Lemma append_rows_nil (df resampled : DataFrame) :
  append_rows df resampled [] = Ok resampled.
Proof. reflexivity. Qed.

Lemma for_each_no_deficit (df : DataFrame) (class_count items : list (string * nat))
    (resampled : DataFrame) (g : Random.state) :
  Forall (fun it => (series_max class_count - it.2)%nat = 0%nat) items ->
  for_each (resample_class df class_count) items (resampled, g)
  = Ok (resampled, g).
Proof.
  induction 1 as [|it items Hit _ IH]; [done|].
  rewrite for_each_cons.
  assert (Hstep : resample_class df class_count (resampled, g) it
                  = Ok (resampled, g)).
  { unfold resample_class. rewrite Hit. reflexivity. }
  rewrite Hstep, bind_Ok_l. exact IH.
Qed.

(** X16. A table whose classes all have the same number of rows goes through
    the oversampling unchanged, and no random draw is made. *)
Theorem oversample_balanced_is_identity (g : Random.state) (train_data : DataFrame) :
  (forall c, c ∈ class_column train_data ->
             count_of c (class_column train_data)
             = series_max (value_counts (class_column train_data))) ->
  oversample g train_data = Ok (train_data, g).
Proof.
  intros Hbal. unfold oversample. rewrite for_each_no_deficit; [done|].
  apply Forall_forall. intros [c n] Hcn.
  apply elem_of_value_counts in Hcn as [Hc ->]. simpl. rewrite (Hbal c Hc). lia.
Qed.

Lemma oversample_balanced_is_identity_witness :
  oversample Examples.rng Examples.val_rows = Ok (Examples.val_rows, Examples.rng).
Proof.
  apply (oversample_balanced_is_identity Examples.rng Examples.val_rows).
  intros c Hc. apply list_elem_of_In in Hc. destruct Hc as [<-|[]]. reflexivity.
Defined.

(** What comes out of the oversampling, class by class. *)
Lemma oversample_output (g : Random.state) (df : DataFrame) :
  let col := class_column df in
  let mx := series_max (value_counts col) in
  exists extra g',
    oversample g df = Ok (df ++ extra, g')
    /\ (forall c, c ∈ class_column (df ++ extra) <-> c ∈ col)
    /\ (forall c, c ∈ col -> count_of c (class_column (df ++ extra)) = mx).
Proof.
  intros col mx.
  destruct (oversample_ok g df) as (extra & g' & Hrun & Hin & _ & Hcount).
  fold col in Hcount. fold mx in Hcount.
  exists extra, g'. split; [exact Hrun|]. split.
  - intros c. rewrite class_column_app, elem_of_app. split; [|by left].
    intros [Hc|Hc]; [done|].
    apply elem_of_class_column in Hc as (r & Hr & <-).
    rewrite Forall_forall in Hin. apply elem_of_class_column.
    exists r. split; [by apply Hin | done].
  - intros c Hc. rewrite class_column_app, count_of_app, Hcount.
    rewrite decide_True by done.
    assert ((count_of c col <= mx)%nat); [|unfold col in *; lia].
    apply (series_max_ge (value_counts col) (c, count_of c col)).
    by apply elem_of_value_counts.
Qed.

(** X17. Oversampling adds and removes no class: the classes of the table that
    comes out are those of the table that was read. *)
Theorem oversample_keeps_the_classes (g : Random.state) (train_data : DataFrame) :
  exists out g',
    oversample g train_data = Ok (out, g')
    /\ forall c, c ∈ class_column out <-> c ∈ class_column train_data.
Proof.
  destruct (oversample_output g train_data) as (extra & g' & Hrun & Hcls & _).
  by exists (train_data ++ extra), g'.
Qed.

(** X18. Oversampling is idempotent: the table that comes out is balanced, so
    oversampling it again, with any random source, returns it as it is and
    leaves the source untouched. *)
Theorem oversample_idempotent (g : Random.state) (train_data : DataFrame) :
  exists out g',
    oversample g train_data = Ok (out, g')
    /\ forall g2, oversample g2 out = Ok (out, g2).
Proof.
  destruct (oversample_output g train_data) as (extra & g' & Hrun & Hcls & Hcnt).
  exists (train_data ++ extra), g'. split; [exact Hrun|].
  intros g2. apply oversample_balanced_is_identity.
  set (out := train_data ++ extra) in *.
  intros c Hc. pose proof Hc as Hc'. apply Hcls in Hc'. rewrite (Hcnt c Hc').
  destruct (series_max_attained (value_counts (class_column out)))
    as ([c2 n2] & Hin2 & <-).
  { intros Hnil.
    assert (H : (c, count_of c (class_column out)) ∈ value_counts (class_column out))
      by (by apply elem_of_value_counts).
    rewrite Hnil in H. by apply not_elem_of_nil in H. }
  apply elem_of_value_counts in Hin2 as [Hc2 ->]. simpl.
  symmetry. apply Hcnt. by apply Hcls.
Qed.

Lemma choices_state {A} (population : list A) (k : nat) (g g' : Random.state)
    (picked : list A) :
  Random.choices g population k = Ok (picked, g') ->
  length picked = k /\ Random.draws g' = Random.draws g
  /\ Random.cursor g' = (Random.cursor g + k)%nat.
Proof.
  revert g g' picked. induction k as [|k IH]; intros g g' picked H.
  - injection H as <- <-. simpl. repeat split. lia.
  - simpl in H. destruct (population !! _) as [x|]; [|discriminate].
    apply bind_Ok in H as ([l g1] & Hl & H). injection H as <- <-.
    apply IH in Hl as (Hlen & Hd & Hc). simpl in *.
    split; [by rewrite Hlen|]. split; [done | lia].
Qed.

Lemma append_rows_length (df resampled out : DataFrame) (idxs : list nat) :
  append_rows df resampled idxs = Ok out ->
  length out = (length resampled + length idxs)%nat.
Proof.
  revert resampled. induction idxs as [|i idxs IH]; intros resampled H.
  - injection H as <-. simpl. lia.
  - simpl in H. apply bind_Ok in H as (r & _ & H). apply IH in H.
    unfold concat_row in H. rewrite length_app in H. simpl in *. lia.
Qed.

Lemma for_each_class_state (df : DataFrame) (class_count items : list (string * nat))
    (resampled out : DataFrame) (g g' : Random.state) :
  for_each (resample_class df class_count) items (resampled, g) = Ok (out, g') ->
  Random.draws g' = Random.draws g
  /\ (Random.cursor g' + length resampled = Random.cursor g + length out)%nat.
Proof.
  revert resampled g. induction items as [|it items IH]; intros resampled g H.
  - injection H as <- <-. by split.
  - rewrite for_each_cons in H. apply bind_Ok in H as ([mid g1] & Hstep & H).
    apply IH in H as [Hd Hc]. unfold resample_class in Hstep.
    apply bind_Ok in Hstep as ([picked gp] & Hpick & Hstep).
    apply bind_Ok in Hstep as (rows & Hrows & Hstep).
    injection Hstep as <- <-. simpl in *.
    apply choices_state in Hpick as (Hlen & Hd1 & Hc1).
    apply append_rows_length in Hrows.
    split; [congruence | lia].
Qed.

(** X19. The oversampling makes one random draw per row that it adds, and none
    otherwise: the position in the sequence of draws moves on by the number
    of added rows, and the sequence itself is the same. *)
Theorem oversample_draws_once_per_added_row (g : Random.state) (train_data : DataFrame) :
  exists out g',
    oversample g train_data = Ok (out, g')
    /\ Random.draws g' = Random.draws g
    /\ (Random.cursor g' + length train_data = Random.cursor g + length out)%nat.
Proof.
  destruct (oversample_ok g train_data) as (extra & g' & Hrun & _).
  exists (train_data ++ extra), g'. split; [exact Hrun|].
  unfold oversample in Hrun. apply bind_Ok in Hrun as ([out gl] & Hloop & Hret).
  injection Hret as Hout <-. unfold reset_index in Hout. simpl in Hout. subst out.
  by apply for_each_class_state in Hloop.
Qed.

(** What [trainMountingConfigClassifier] returns, on any files. *)
Lemma trainMountingConfigClassifier_ok self (train_path val_path : string)
    (g : Random.state) (s : fs) :
  let rows (dir : string) :=
    default [] (xml_folders s !! resolve s (dir +:+ "/annotations/")) in
  let train_data :=
    if decide (resolve s (labels_path train_path) = resolve s (labels_path val_path))
    then rows val_path else rows train_path in
  exists extra g',
    oversample g train_data = Ok (train_data ++ extra, g')
    /\ trainMountingConfigClassifier self train_path val_path g s =
       Ok {| det_files := to_csv (train_data ++ extra) (labels_path train_path)
                            (convert_annotations train_path val_path s);
             det_random := g';
             det_dataset := (labels_path train_path, train_path +:+ "/images");
             det_val_dataset := (labels_path val_path, val_path +:+ "/images");
             det_loader_batch_size := batch_size self;
             det_classes := ["ground-fixed"; "carport-fixed"; "rooftop-fixed";
                             "ground-single_axis_tracker"];
             det_epochs := no_of_epochs self;
             det_learning_rate := learning_rate self |}.
Proof.
  intros rows train_data. subst train_data rows. cbv beta.
  pose proof (convert_annotations_tables train_path val_path s) as [_ Hat].
  cbv beta zeta in Hat.
  match goal with
  | |- context [oversample g ?t] =>
      destruct (oversample_ok g t) as (extra & g' & Hover & _)
  end.
  exists extra, g'. split; [exact Hover|].
  unfold trainMountingConfigClassifier, balance_classes.
  rewrite (read_csv_Some _ _ _ Hat), bind_Ok_l, Hover. reflexivity.
Qed.

(** X20. The detection trainer writes the two annotation tables and nothing
    else: the XML folders are as they were, and so is every CSV file other
    than the training and the validation table. *)
Theorem trainMountingConfigClassifier_writes_two_tables_only
    self (train_path val_path : string) (g : Random.state) (s : fs) :
  exists r,
    trainMountingConfigClassifier self train_path val_path g s = Ok r
    /\ xml_folders (det_files r) = xml_folders s
    /\ resolve (det_files r) = resolve s
    /\ forall file,
         file <> resolve s (labels_path train_path) ->
         file <> resolve s (labels_path val_path) ->
         csv_files (det_files r) !! file = csv_files s !! file.
Proof.
  destruct (trainMountingConfigClassifier_ok self train_path val_path g s)
    as (extra & g' & _ & Hrun).
  eexists. split; [exact Hrun|]. simpl. split; [done|]. split; [done|].
  intros file Hp Hv. by rewrite !lookup_insert_ne.
Qed.

(** X21. Training again on the files that a first call left behind does not
    oversample the oversampled table: the training table is built afresh
    from the XML folder, so after the second call it has as many rows, and
    as many rows of every class, as after the first. *)
Theorem retraining_does_not_compound_oversampling
    self (train_path val_path : string) (g1 g2 : Random.state) (s : fs) :
  exists r1 r2 t1 t2,
    trainMountingConfigClassifier self train_path val_path g1 s = Ok r1
    /\ trainMountingConfigClassifier self train_path val_path g2 (det_files r1) = Ok r2
    /\ csv_at (labels_path train_path) (det_files r1) = Some t1
    /\ csv_at (labels_path train_path) (det_files r2) = Some t2
    /\ length t2 = length t1
    /\ forall c, count_of c (class_column t2) = count_of c (class_column t1).
Proof.
  destruct (trainMountingConfigClassifier_ok self train_path val_path g1 s)
    as (e1 & g1' & Ho1 & Hrun1).
  set (rows := if decide (resolve s (labels_path train_path)
                          = resolve s (labels_path val_path))
               then default [] (xml_folders s
                                  !! resolve s (val_path +:+ "/annotations/"))
               else default [] (xml_folders s
                                  !! resolve s (train_path +:+ "/annotations/")))
    in *.
  set (s1 := to_csv (rows ++ e1) (labels_path train_path)
               (convert_annotations train_path val_path s)) in *.
  destruct (trainMountingConfigClassifier_ok self train_path val_path g2 s1)
    as (e2 & g2' & Ho2 & Hrun2).
  change (xml_folders s1) with (xml_folders s) in Ho2, Hrun2.
  change (resolve s1) with (resolve s) in Ho2, Hrun2.
  fold rows in Ho2, Hrun2.
  destruct (oversample_ok g1 rows) as (e1' & g1'' & Ho1' & _ & Hlen1 & Hcnt1).
  destruct (oversample_ok g2 rows) as (e2' & g2'' & Ho2' & _ & Hlen2 & Hcnt2).
  rewrite Ho1 in Ho1'. injection Ho1' as He1 _. apply app_inv_head in He1 as <-.
  rewrite Ho2 in Ho2'. injection Ho2' as He2 _. apply app_inv_head in He2 as <-.
  do 2 eexists. exists (rows ++ e1), (rows ++ e2).
  split; [exact Hrun1|]. split; [exact Hrun2|]. unfold csv_at. simpl.
  split; [apply lookup_insert_eq|]. split; [apply lookup_insert_eq|]. split.
  - rewrite !length_app. congruence.
  - intros c. rewrite !class_column_app, !count_of_app. by rewrite Hcnt1, Hcnt2.
Qed.

End OversampleMore.
